(** * A shallow embedding of gosnowflake's connection.go

    The statement-execution side of the driver: [exec], [ExecContext],
    [QueryContext], [BeginTx], [Close], [Ping], [PrepareContext] and the
    helpers they call.  Go values are modelled as follows:
    - [int64] and [uint64] are [Z] with their wrap-around written out;
    - Go strings are [String.string] (byte strings);
    - a [map[string]*string] is a [gmap string string];
    - a Go runtime panic (nil dereference, index out of range, method
      call on a nil interface) is [None] in the [option]-valued helpers
      and in the state monad [M];
    - Go's [(value, error)] results are written out as pairs, or as [res]
      when the value is nil whenever the error is set. *)

From Stdlib Require Import ZArith Lia List String Ascii Bool PrimFloat Sorted.
From stdpp Require Import base gmap strings.
Import ListNotations.
Open Scope Z_scope.

(** ** Go runtime: the parts of [strconv] and [strings] used by the code *)

Module GoRT.

(** Error kinds of [strconv.NumError]. *)
Inductive numErrKind := ErrSyntax | ErrRange.

Definition is_digit (c : ascii) : bool :=
  (Nat.leb 48 (nat_of_ascii c) && Nat.leb (nat_of_ascii c) 57)%bool.

Definition digit_val (c : ascii) : Z := Z.of_nat (nat_of_ascii c) - 48.

Definition maxUint64 : Z := 2 ^ 64 - 1.

(** The digit loop of [strconv.ParseUint(s, 10, 64)]: a non-digit is a
    syntax error, an overflow is reported as soon as it is met. *)
Fixpoint parseUint_loop (s : string) (n : Z) : numErrKind + Z :=
  match s with
  | EmptyString => inr n
  | String c s' =>
      if negb (is_digit c) then inl ErrSyntax
      else if Z.leb (maxUint64 / 10 + 1) n then inl ErrRange
      else let n1 := n * 10 + digit_val c in
           if Z.ltb maxUint64 n1 then inl ErrRange
           else parseUint_loop s' n1
  end.

Definition ParseUint (s : string) : numErrKind + Z :=
  match s with
  | EmptyString => inl ErrSyntax
  | _ => parseUint_loop s 0
  end.

(** [strconv.ParseInt(s, 10, 64)]: the error carries the function name
    and the whole input, as [strconv.NumError] does. *)
Definition ParseInt_gen (fn : string) (s0 : string) : (string * string * numErrKind) + Z :=
  match s0 with
  | EmptyString => inl (fn, s0, ErrSyntax)
  | String c s' =>
      let '(neg, s) :=
        if Ascii.eqb c "+"%char then (false, s')
        else if Ascii.eqb c "-"%char then (true, s')
        else (false, s0) in
      match ParseUint s with
      | inl ErrSyntax => inl (fn, s0, ErrSyntax)
      | inl ErrRange => inl (fn, s0, ErrRange)
      | inr un =>
          if (negb neg && Z.leb (2 ^ 63) un)%bool then inl (fn, s0, ErrRange)
          else if (neg && Z.ltb (2 ^ 63) un)%bool then inl (fn, s0, ErrRange)
          else inr (if neg then - un else un)
      end
  end.

Definition ParseInt (s : string) := ParseInt_gen "ParseInt" s.

(** [strconv.Atoi] on a 64-bit platform: same syntax and range as
    [ParseInt(s, 10, 0)], errors tagged with ["Atoi"]. *)
Definition Atoi (s : string) := ParseInt_gen "Atoi" s.

Fixpoint uint_to_string (d : Decimal.uint) : string :=
  match d with
  | Decimal.Nil => ""
  | Decimal.D0 d => String "0" (uint_to_string d)
  | Decimal.D1 d => String "1" (uint_to_string d)
  | Decimal.D2 d => String "2" (uint_to_string d)
  | Decimal.D3 d => String "3" (uint_to_string d)
  | Decimal.D4 d => String "4" (uint_to_string d)
  | Decimal.D5 d => String "5" (uint_to_string d)
  | Decimal.D6 d => String "6" (uint_to_string d)
  | Decimal.D7 d => String "7" (uint_to_string d)
  | Decimal.D8 d => String "8" (uint_to_string d)
  | Decimal.D9 d => String "9" (uint_to_string d)
  end.

(** [strconv.FormatInt(v, 10)] and [strconv.Itoa]. *)
Definition FormatInt (z : Z) : string :=
  if Z.ltb z 0 then String "-" (uint_to_string (N.to_uint (Z.to_N (- z))))
  else uint_to_string (N.to_uint (Z.to_N z)).

Definition Itoa := FormatInt.

(** [strconv.FormatBool]. *)
Definition FormatBool (b : bool) : string := if b then "true" else "false".

(** The ASCII path of [strings.ToLower]: A-Z map to a-z, other bytes stay. *)
Definition lower_ascii (c : ascii) : ascii :=
  let n := nat_of_ascii c in
  if (Nat.leb 65 n && Nat.leb n 90)%bool then ascii_of_nat (n + 32) else c.

Fixpoint lowerASCII (s : string) : string :=
  match s with
  | EmptyString => EmptyString
  | String c s' => String (lower_ascii c) (lowerASCII s')
  end.

(** The test of [strings.ToLower] for its ASCII path: no byte is at or
    above [utf8.RuneSelf] (0x80). *)
Fixpoint isASCII (s : string) : bool :=
  match s with
  | EmptyString => true
  | String c s' => Nat.ltb (nat_of_ascii c) 128 && isASCII s'
  end.

(** [strings.Split(s, sep)] for a one-byte separator. *)
Fixpoint Split (s : string) (sep : ascii) : list string :=
  match s with
  | EmptyString => [EmptyString]
  | String c s' =>
      match Split s' sep with
      | [] => [String c EmptyString]
      | w :: ws => if Ascii.eqb c sep then EmptyString :: w :: ws
                   else String c w :: ws
      end
  end.

(** Two's complement wrap-around of [int64] and [uint64] arithmetic. *)
Definition wrap_int64 (z : Z) : Z := (z + 2 ^ 63) mod 2 ^ 64 - 2 ^ 63.
Definition wrap_uint64 (z : Z) : Z := z mod 2 ^ 64.

End GoRT.

Import GoRT.

(** ** Data model (connection.go and the types it uses) *)

(** A Go [interface{}] value as found in a [context.Context] or in a
    JSON request: [AnyOpaque] stands for values [encoding/json] cannot
    encode (channels, functions). *)
Inductive goAny :=
| AnyBool (b : bool)
| AnyInt (z : Z)
| AnyString (s : string)
| AnyOpaque (n : nat).

(** The errors the functions of connection.go return. *)
Inductive goError :=
| NumError (Func Num : string) (Err : numErrKind)          (* strconv *)
| SnowflakeError (Number : Z) (SQLState Message QueryID : string)
| ErrBadConn                                               (* driver.ErrBadConn *)
| CastError (v : goAny)          (* "failed to cast val %+v to bool" *)
| JSONError                      (* json.Marshal: unsupported value *)
| TransportError (id : nat)      (* returned by the transport functions *)
| ConvError (msg : string).      (* returned by the binding converters *)

Definition numError (e : string * string * numErrKind) : goError :=
  let '(f, n, k) := e in NumError f n k.

(** A Go result [(T, error)] whose [T] is nil whenever the error is set. *)
Inductive res (A : Type) := Ok (a : A) | Err (e : goError).
Arguments Ok {A} a.
Arguments Err {A} e.

Record execResponseRowType := { Name : string; ColType : string }.

(** A session parameter value as decoded from JSON into [interface{}]. *)
Inductive paramValue :=
| PInt64 (z : Z)
| PFloat64 (f : float)
| PBool (b : bool)
| PString (s : string)
| POther.

Record nameValueParameter := { ParamName : string; ParamValue : paramValue }.

(** [execResponseData]: [RowSet] is [[][]*string], a cell being a
    possibly nil pointer. *)
Record execResponseData := {
  StatementTypeID : Z;
  RowType : list execResponseRowType;
  RowSet : list (list (option string));
  RowSetBase64 : string;
  Total : Z;
  Chunks : list string;
  Qrmk : string;
  QueryResultFormat : string;
  Parameters : list nameValueParameter;
  SQLState : string;
  QueryID : string;
  FinalDatabaseName : string;
  FinalSchemaName : string;
  FinalRoleName : string;
  FinalWarehouseName : string;
  ResultIDs : string;
  ResultTypes : string }.

Record execResponse := {
  Data : execResponseData;
  Message : string;
  Code : string;
  Success : bool }.

Record execBindParameter := { BindType : string; BindValue : string }.

(** [execRequest]: [Parameters] is the map that can only hold the
    multi-statement count; [Bindings] is the bindings map, nil when
    there are no bindings, listed in insertion order (its keys are
    distinct). *)
Record execRequest := {
  SQLText : string;
  AsyncExec : bool;
  IsInternal : bool;
  SequenceID : Z;
  ReqParameters : option goAny;
  Bindings : option (list (string * execBindParameter)) }.

(** The values a [context.Context] carries under the driver's keys. *)
Record context := {
  ctxMultiStatementCount : option goAny;
  ctxAsyncMode : option goAny;
  ctxIsInternal : option goAny }.

Definition emptyCtx : context := Build_context None None None.

(** The body of a child-result GET, once decoded: malformed JSON, or a
    possibly null [*execResponse]. *)
Inductive jsonBody := BodyMalformed (e : goError) | BodyJSON (r : option execResponse).

Inductive httpGet := HttpErr (e : goError) | HttpOk (b : jsonBody).

(** Modelled from the spec: the keep-alive task of heartbeat.go (not in
    src), which runs periodically between [start] and [stop]. *)
Record heartbeat := { hbRunning : bool }.

(** [snowflakeRestful]: the transport collaborator, with its injectable
    functions.  The server is seen through them: [FuncPostQuery] answers
    a request, [FuncGet] a result path, [FuncCloseSession] the close. *)
Record snowflakeRestful := {
  FuncPostQuery : execRequest -> option execResponse * option goError;
  FuncGet : string -> httpGet;
  FuncCloseSession : option goError;
  Token : string;
  HeartBeat : option heartbeat }.

Record Config := {
  Database : string;
  Schema : string;
  Role : string;
  Warehouse : string;
  Params : gmap string string }.

(** [snowflakeConn]: [cfg] and [rest] are pointers (nil after [Close]). *)
Record snowflakeConn := {
  cfg : option Config;
  rest : option snowflakeRestful;
  SequenceCounter : Z;
  connQueryID : string;
  connSQLState : string }.

Record NamedValue (V : Type) := { nvName : string; nvOrdinal : Z; nvValue : V }.
Arguments nvName {V}. Arguments nvOrdinal {V}. Arguments nvValue {V}.

Record TxOptions := { Isolation : Z; ReadOnly : bool }.

(** [sql.LevelDefault]. *)
Definition LevelDefault : Z := 0.

Inductive driverResult :=
| snowflakeResult (affectedRows insertID : Z) (queryID : string)
| ResultNoRows.

(** [&snowflakeTx{sc}]: a transaction handle on this connection. *)
Inductive snowflakeTx := mkSnowflakeTx.

(** [&snowflakeStmt{sc, query}]. *)
Record snowflakeStmt := { stmtQuery : string }.

(** [snowflakeRows]: the chunk downloaders are populated from response
    data only ([populateChunkDownloader]); the chain lists the data
    each downloader of [rows.ChunkDownloader -> NextDownloader -> ...]
    was populated from. *)
Record snowflakeRows := {
  rowsRowType : list execResponseRowType;
  rowsChain : list execResponseData;
  rowsQueryID : string }.

Record childResult := { cid : string; ctyp : string }.

(** ** Constants *)

Definition statementTypeIDMulti : Z := 4096.                        (* 0x1000 *)
Definition statementTypeIDDml : Z := 12288.                         (* 0x3000 *)
Definition statementTypeIDInsert : Z := statementTypeIDDml + 256.
Definition statementTypeIDUpdate : Z := statementTypeIDDml + 512.
Definition statementTypeIDDelete : Z := statementTypeIDDml + 768.
Definition statementTypeIDMerge : Z := statementTypeIDDml + 1024.
Definition statementTypeIDMultiTableInsert : Z := statementTypeIDDml + 1280.

Definition sessionClientSessionKeepAlive : string := "client_session_keep_alive".

(** ** Connection state, network trace and the state monad *)

Inductive event :=
| EvPostQuery (req : execRequest)
| EvGet (path : string)
| EvStartHeartBeat
| EvStopHeartBeat
| EvCloseSession.

Record St := { conn : snowflakeConn; trace : list event }.

(** A computation on the connection: [None] is a Go runtime panic. *)
Definition M (A : Type) : Type := St -> option (A * St).

Global Instance M_ret : MRet M := fun A a s => Some (a, s).
Global Instance M_bind : MBind M := fun A B f m s =>
  match m s with Some (a, s') => f a s' | None => None end.

Definition panic {A} : M A := fun _ => None.
Definition getConn : M snowflakeConn := fun s => Some (conn s, s).
Definition setConn (c : snowflakeConn) : M unit :=
  fun s => Some (tt, {| conn := c; trace := trace s |}).
Definition emit (e : event) : M unit :=
  fun s => Some (tt, {| conn := conn s; trace := trace s ++ [e] |}).
(** Dereference of a Go pointer: panics on nil. *)
Definition deref {A} (p : option A) : M A :=
  match p with Some a => mret a | None => panic end.

Definition set_counter (c : Z) (sc : snowflakeConn) : snowflakeConn :=
  {| cfg := cfg sc; rest := rest sc; SequenceCounter := c;
     connQueryID := connQueryID sc; connSQLState := connSQLState sc |}.

(** ** Pure helpers of connection.go *)

(** [isDml]. *)
Definition isDml (v : Z) : bool :=
  (Z.leb statementTypeIDDml v && Z.leb v statementTypeIDMultiTableInsert)%bool.

(** [isMultiStmt]: [data.RowType[0]] is only evaluated when the type id
    matches ([&&] short-circuits) and panics on an empty schema. *)
Definition isMultiStmt (data : execResponseData) : option bool :=
  if Z.eqb (StatementTypeID data) statementTypeIDMulti then
    match RowType data with
    | [] => None
    | c :: _ => Some (String.eqb (Name c) "multiple statement execution")
    end
  else Some false.

(** The loop of [updateRows]: column [i] reads [*data.RowSet[0][i]]. *)
Fixpoint updateRows_loop (rowset : list (list (option string))) (i k : nat)
    (count : Z) : option (res Z) :=
  match k with
  | O => Some (Ok count)
  | S k' =>
      match rowset with
      | [] => None                                  (* data.RowSet[0] *)
      | row :: _ =>
          match nth_error row i with
          | None => None                            (* data.RowSet[0][i] *)
          | Some None => None                       (* nil *string *)
          | Some (Some cell) =>
              match ParseInt cell with
              | inl e => Some (Err (numError e))    (* return -1, err *)
              | inr v => updateRows_loop rowset (S i) k' (wrap_int64 (count + v))
              end
          end
      end
  end.

(** [updateRows]. *)
Definition updateRows (data : execResponseData) : option (res Z) :=
  updateRows_loop (RowSet data) 0 (length (RowType data)) 0.

Fixpoint zipChildren (ids types : list string) : option (list childResult) :=
  match ids with
  | [] => Some []
  | id :: ids' =>
      match types with
      | [] => None                                  (* resultTypes[i] *)
      | t :: types' =>
          match zipChildren ids' types' with
          | Some cs => Some ({| cid := id; ctyp := t |} :: cs)
          | None => None
          end
      end
  end.

(** [getChildResults]. *)
Definition getChildResults (IDs types : string) : option (list childResult) :=
  if String.eqb IDs "" then Some []
  else zipChildren (Split IDs ",") (Split types ",").

(** [isInternal] and [isAsyncMode]. *)
Definition castBool (val : option goAny) : res bool :=
  match val with
  | None => Ok false
  | Some (AnyBool b) => Ok b
  | Some v => Err (CastError v)
  end.

Definition isInternal (ctx : context) : res bool := castBool (ctxIsInternal ctx).
Definition isAsyncMode (ctx : context) : res bool := castBool (ctxAsyncMode ctx).

(** [json.Marshal(req)] fails only on values JSON cannot encode. *)
Definition jsonMarshalable (req : execRequest) : bool :=
  match ReqParameters req with Some (AnyOpaque _) => false | _ => true end.

(** [isClientSessionKeepAliveEnabled], given [*sc.cfg]. *)
Definition keepAliveEnabled (c : Config) : bool :=
  match Params c !! sessionClientSessionKeepAlive with
  | Some v => String.eqb v "true"
  | None => false
  end.

Definition queryResultPath (id : string) : string :=
  String.append "/queries/" (String.append id "/result").

(** The converters of converter.go (not in src) that the binding loop
    of [exec] calls. *)
Record converters (V : Type) := {
  goTypeToSnowflake : V -> string -> string;
  dataTypeMode : V -> res string;
  valueToString : V -> string -> res string;
  arrayToString : V -> string * string }.
Arguments goTypeToSnowflake {V} c _ _. Arguments dataTypeMode {V} c _.
Arguments valueToString {V} c _ _. Arguments arrayToString {V} c _.

(** The other names of the package defined outside connection.go that it
    uses (converter.go, errors.go), and Go's
    [strconv.FormatFloat(v, 'g', -1, 64)]. *)
Record externals (V : Type) := {
  conv : converters V;
  FormatFloat : float -> string;
  (* [strings.Map(unicode.ToLower, s)]: the non-ASCII path of
     [strings.ToLower], with Unicode's case mapping and invalid UTF-8
     replaced by U+FFFD *)
  MapUnicodeToLower : string -> string;
  ErrNoReadOnlyTransaction : Z;
  ErrNoDefaultTransactionIsolationLevel : Z;
  SQLStateFeatureNotSupported : string;
  errMsgNoReadOnlyTransaction : string;
  errMsgNoDefaultTransactionIsolationLevel : string }.
Arguments conv {V} e.
Arguments FormatFloat {V} e _.
Arguments MapUnicodeToLower {V} e _.
Arguments ErrNoReadOnlyTransaction {V} e.
Arguments ErrNoDefaultTransactionIsolationLevel {V} e.
Arguments SQLStateFeatureNotSupported {V} e.
Arguments errMsgNoReadOnlyTransaction {V} e.
Arguments errMsgNoDefaultTransactionIsolationLevel {V} e.

Section Binding.

Context {V : Type}.
Variable cv : converters V.

(** The binding loop of [exec] (lines 87-116), from slot [idx] on, in
    timestamp mode [tsmode]; the entries in insertion order. *)
Fixpoint bindLoop (tsmode : string) (idx : Z) (bs : list (NamedValue V))
    : res (list (string * execBindParameter)) :=
  match bs with
  | [] => Ok []
  | b :: bs' =>
      let t := goTypeToSnowflake cv (nvValue b) tsmode in
      if String.eqb t "CHANGE_TYPE" then
        match dataTypeMode cv (nvValue b) with
        | Err e => Err e
        | Ok tsmode' => bindLoop tsmode' idx bs'
        end
      else
        let conv :=
          if String.eqb t "ARRAY" then Ok (arrayToString cv (nvValue b))
          else match valueToString cv (nvValue b) tsmode with
               | Ok v1 => Ok (t, v1)
               | Err e => Err e
               end in
        match conv with
        | Err e => Err e
        | Ok (t', v1) =>
            match bindLoop tsmode (idx + 1) bs' with
            | Err e => Err e
            | Ok entries =>
                Ok ((Itoa idx, {| BindType := t'; BindValue := v1 |}) :: entries)
            end
        end
  end.

Definition buildBindings (bs : list (NamedValue V))
    : res (option (list (string * execBindParameter))) :=
  match bs with
  | [] => Ok None
  | _ => match bindLoop "TIMESTAMP_NTZ" 1 bs with
         | Ok m => Ok (Some m)
         | Err e => Err e
         end
  end.

End Binding.

Arguments bindLoop {V} cv tsmode idx bs.
Arguments buildBindings {V} cv bs.

Section Driver.

Context {V : Type}.
Variable x : externals V.

(** The value stored for one session parameter. *)
Definition paramString (v : paramValue) : string :=
  match v with
  | PInt64 z => FormatInt z
  | PFloat64 f => FormatFloat x f
  | PBool b => FormatBool b
  | PString s => s
  | POther => ""
  end.

(** [strings.ToLower]: a string of ASCII bytes is lowered byte by byte,
    any other goes through [unicode.ToLower] rune by rune. *)
Definition ToLower (s : string) : string :=
  if isASCII s then lowerASCII s else MapUnicodeToLower x s.

(** [populateSessionParameters] on [sc.cfg.Params]. *)
Definition populateSessionParameters (parameters : list nameValueParameter)
    (m : gmap string string) : gmap string string :=
  fold_left (fun m param =>
    <[ ToLower (ParamName param) := paramString (ParamValue param) ]> m)
    parameters m.

(** The session update of a successful [exec] (lines 159-165). *)
Definition applySuccess (d : execResponseData) (c : Config) (sc : snowflakeConn)
    : snowflakeConn :=
  {| cfg := Some {| Database := FinalDatabaseName d;
                    Schema := FinalSchemaName d;
                    Role := FinalRoleName d;
                    Warehouse := FinalWarehouseName d;
                    Params := populateSessionParameters (Parameters d) (Params c) |};
     rest := rest sc;
     SequenceCounter := SequenceCounter sc;
     connQueryID := QueryID d;
     connSQLState := SQLState d |}.

(** The request [exec] builds (lines 72-84, 90). *)
Definition buildRequest (ctx : context) (query : string) (noResult isInternal : bool)
    (counter : Z) (b : option (list (string * execBindParameter))) : execRequest :=
  {| SQLText := query; AsyncExec := noResult; IsInternal := isInternal;
     SequenceID := counter; ReqParameters := ctxMultiStatementCount ctx;
     Bindings := b |}.

(** The status code of a response (lines 139-148): [-1] when empty. *)
Definition statusCode (code : string) : (string * string * numErrKind) + Z :=
  if String.eqb code "" then inr (-1) else Atoi code.

(** [exec]. *)
Definition exec (ctx : context) (query : string) (noResult isInternal : bool)
    (bindings : list (NamedValue V)) : M (option execResponse * option goError) :=
  sc0 ← getConn;
  let counter := wrap_uint64 (SequenceCounter sc0 + 1) in
  setConn (set_counter counter sc0);;
  sc ← getConn;
  match buildBindings (conv x) bindings with
  | Err e => mret (None, Some e)
  | Ok b =>
      let req := buildRequest ctx query noResult isInternal counter b in
      _ ← deref (cfg sc);                     (* sc.cfg.Params[serviceName] *)
      if negb (jsonMarshalable req) then mret (None, Some JSONError) else
      (r ← deref (rest sc);                    (* sc.rest.FuncPostQuery *)
      emit (EvPostQuery req);;
      let '(data, err) := FuncPostQuery r req in
      match err with
      | Some e => mret (data, Some e)
      | None =>
          d ← deref data;                     (* data.Code *)
          match statusCode (Code d) with
          | inl e => mret (Some d, Some (numError e))
          | inr code =>
              if negb (Success d) then
                mret (None, Some (SnowflakeError code (SQLState (Data d))
                                    (Message d) (QueryID (Data d))))
              else
                (sc' ← getConn;
                 c ← deref (cfg sc');
                 setConn (applySuccess (Data d) c sc');;
                 mret (Some d, None))
          end
      end)
  end.


(** [getQueryResult]: the headers read [sc.cfg.Params], the token is read
    from [sc.rest]; [FuncGet] receives the full URL of [resultPath]. *)
Definition getQueryResult (resultPath : string)
    : M (option execResponse * option goError) :=
  sc ← getConn;
  _ ← deref (cfg sc);
  r ← deref (rest sc);
  emit (EvGet resultPath);;
  match FuncGet r resultPath with
  | HttpErr e => mret (None, Some e)                     (* FuncGet failed *)
  | HttpOk (BodyMalformed e) => mret (None, Some e)      (* Decode failed *)
  | HttpOk (BodyJSON respd) => mret (respd, None)
  end.

(** The error branch after [sc.exec] in [ExecContext] and [QueryContext]
    (lines 247-260, 342-356). *)
Definition reportExecError {A} (data : option execResponse) (err : goError)
    : M (res A) :=
  match data with
  | Some d =>
      match Atoi (Code d) with
      | inl e => mret (Err (numError e))
      | inr _ => panic       (* Message: err.Error() on the inner, nil err *)
      end
  | None => mret (Err err)
  end.

(** The child loop of [ExecContext] (lines 278-315). *)
Fixpoint execChildren (children : list childResult) (updatedRows : Z) : M (res Z) :=
  match children with
  | [] => mret (Ok updatedRows)
  | child :: children' =>
      '(childData, err) ← getQueryResult (queryResultPath (cid child));
      match err with
      | Some _ =>
          cd ← deref childData;        (* childData.Code, before the nil check *)
          match Atoi (Code cd) with
          | inl e => mret (Err (numError e))
          | inr _ => panic             (* Message: err.Error() on the inner, nil err *)
          end
      | None =>
          cd ← deref childData;        (* childData.Data *)
          if isDml (StatementTypeID (Data cd)) then
            match updateRows (Data cd) with
            | None => panic
            | Some (Err _) =>
                match Atoi (Code cd) with
                | inl e => mret (Err (numError e))
                | inr _ => panic       (* Message: err.Error() on the inner, nil err *)
                end
            | Some (Ok count) => execChildren children' (wrap_int64 (updatedRows + count))
            end
          else execChildren children' updatedRows
      end
  end.

(** The multi-statement branch of [ExecContext] (lines 277-321). *)
Definition execMulti (d : execResponse) : M (res driverResult) :=
  children ← deref (getChildResults (ResultIDs (Data d)) (ResultTypes (Data d)));
  r ← execChildren children 0;
  match r with
  | Err e => mret (Err e)
  | Ok updatedRows =>
      sc ← getConn;
      mret (Ok (snowflakeResult updatedRows (-1) (connQueryID sc)))
  end.

(** The dispatch of [ExecContext] on a successful response (lines 263-324). *)
Definition execDispatch (d : execResponse) : M (res driverResult) :=
  if isDml (StatementTypeID (Data d)) then
    match updateRows (Data d) with
    | None => panic
    | Some (Err e) => mret (Err e)
    | Some (Ok updatedRows) =>
        sc ← getConn;
        mret (Ok (snowflakeResult updatedRows (-1) (connQueryID sc)))
    end
  else
    match isMultiStmt (Data d) with
    | None => panic
    | Some true => execMulti d
    | Some false => mret (Ok ResultNoRows)
    end.

(** [ExecContext]. *)
Definition ExecContext (ctx : context) (query : string) (args : list (NamedValue V))
    : M (res driverResult) :=
  sc ← getConn;
  match rest sc with
  | None => mret (Err ErrBadConn)
  | Some _ =>
      match isInternal ctx with
      | Err e => mret (Err e)
      | Ok internal =>
          match isAsyncMode ctx with
          | Err e => mret (Err e)
          | Ok noResult =>
              '(data, err) ← exec ctx query noResult internal args;
              match err with
              | Some e => reportExecError data e
              | None => d ← deref data; execDispatch d
              end
          end
      end
  end.

(** The child loop of [QueryContext] (lines 387-414): the data each
    chained downloader is populated from, in order. *)
Fixpoint queryChildren (children : list childResult) (chain : list execResponseData)
    : M (res (list execResponseData)) :=
  match children with
  | [] => mret (Ok chain)
  | child :: children' =>
      '(childData, err) ← getQueryResult (queryResultPath (cid child));
      match err with
      | Some e =>
          match childData with
          | Some cd =>
              match Atoi (Code cd) with
              | inl e' => mret (Err (numError e'))
              | inr _ => panic         (* Message: err.Error() on the inner, nil err *)
              end
          | None => mret (Err e)
          end
      | None =>
          cd ← deref childData;        (* childData.Data *)
          queryChildren children' (chain ++ [Data cd])
      end
  end.

(** The part of [QueryContext] after a successful [exec] (lines 358-418);
    [rows.ChunkDownloader.start()] (chunk_downloader.go) launches the
    downloads of the first downloader of the chain. *)
Definition queryDispatch (d : execResponse) : M (res snowflakeRows) :=
  sc ← getConn;
  let rows0 := {| rowsRowType := RowType (Data d); rowsChain := [Data d];
                  rowsQueryID := connQueryID sc |} in
  match isMultiStmt (Data d) with
  | None => panic
  | Some true =>
    (children ← deref (getChildResults (ResultIDs (Data d)) (ResultTypes (Data d)));
     r ← queryChildren children [];
     match r with
     | Err e => mret (Err e)
     | Ok [] => mret (Ok rows0)
     | Ok chain => mret (Ok {| rowsRowType := RowType (Data d); rowsChain := chain;
                              rowsQueryID := connQueryID sc |})
     end)
  | Some false => mret (Ok rows0)
  end.

(** [QueryContext]. *)
Definition QueryContext (ctx : context) (query : string) (args : list (NamedValue V))
    : M (res snowflakeRows) :=
  sc ← getConn;
  match rest sc with
  | None => mret (Err ErrBadConn)
  | Some _ =>
      match isInternal ctx with
      | Err e => mret (Err e)
      | Ok internal =>
          match isAsyncMode ctx with
          | Err e => mret (Err e)
          | Ok noResult =>
              '(data, err) ← exec ctx query noResult internal args;
              match err with
              | Some e => reportExecError data e
              | None => d ← deref data; queryDispatch d
              end
          end
      end
  end.

(** [BeginTx]. *)
Definition BeginTx (ctx : context) (opts : TxOptions) : M (res snowflakeTx) :=
  if ReadOnly opts then
    mret (Err (SnowflakeError (ErrNoReadOnlyTransaction x)
                 (SQLStateFeatureNotSupported x) (errMsgNoReadOnlyTransaction x) ""))
  else if negb (Z.eqb (Isolation opts) LevelDefault) then
    mret (Err (SnowflakeError (ErrNoDefaultTransactionIsolationLevel x)
                 (SQLStateFeatureNotSupported x)
                 (errMsgNoDefaultTransactionIsolationLevel x) ""))
  else
    (sc ← getConn;
     match rest sc with
     | None => mret (Err ErrBadConn)
     | Some _ =>
         '(_, err) ← exec ctx "BEGIN" false false [];
         match err with
         | Some e => mret (Err e)
         | None => mret (Ok mkSnowflakeTx)
         end
     end).

(** [Begin]. *)
Definition Begin : M (res snowflakeTx) :=
  BeginTx emptyCtx {| Isolation := LevelDefault; ReadOnly := false |}.

(** [Ping]. *)
Definition Ping (ctx : context) : M (option goError) :=
  sc ← getConn;
  match rest sc with
  | None => mret (Some ErrBadConn)
  | Some _ =>
      match isInternal ctx with
      | Err e => mret (Some e)
      | Ok internal =>
          match isAsyncMode ctx with
          | Err e => mret (Some e)
          | Ok noResult =>
              '(_, err) ← exec ctx "SELECT 1" noResult internal [];
              mret err
          end
      end
  end.

End Driver.

Arguments exec {V} x ctx query noResult isInternal bindings.
Arguments ExecContext {V} x ctx query args.
Arguments QueryContext {V} x ctx query args.
Arguments BeginTx {V} x ctx opts.

(** [PrepareContext]. *)
Definition PrepareContext (query : string) : M (res snowflakeStmt) :=
  sc ← getConn;
  match rest sc with
  | None => mret (Err ErrBadConn)
  | Some _ => mret (Ok {| stmtQuery := query |})
  end.

Definition set_rest (r : option snowflakeRestful) (sc : snowflakeConn) : snowflakeConn :=
  {| cfg := cfg sc; rest := r; SequenceCounter := SequenceCounter sc;
     connQueryID := connQueryID sc; connSQLState := connSQLState sc |}.

(** Modelled from the spec: [heartbeat.start] and [heartbeat.stop]
    (heartbeat.go, not in src) start and stop the keep-alive task. *)
Definition heartbeat_start : heartbeat := {| hbRunning := true |}.
Definition heartbeat_stop (hb : option heartbeat) : option heartbeat :=
  match hb with Some _ => Some {| hbRunning := false |} | None => None end.

Definition with_heartbeat (hb : option heartbeat) (r : snowflakeRestful) : snowflakeRestful :=
  {| FuncPostQuery := FuncPostQuery r; FuncGet := FuncGet r;
     FuncCloseSession := FuncCloseSession r; Token := Token r; HeartBeat := hb |}.

(** [startHeartBeat]. *)
Definition startHeartBeat : M unit :=
  sc ← getConn;
  c ← deref (cfg sc);
  if negb (keepAliveEnabled c) then mret tt else
  (r ← deref (rest sc);
   setConn (set_rest (Some (with_heartbeat (Some heartbeat_start) r)) sc);;
   emit EvStartHeartBeat).

(** [stopHeartBeat]. *)
Definition stopHeartBeat : M unit :=
  sc ← getConn;
  c ← deref (cfg sc);
  if negb (keepAliveEnabled c) then mret tt else
  (r ← deref (rest sc);
   setConn (set_rest (Some (with_heartbeat (heartbeat_stop (HeartBeat r)) r)) sc);;
   emit EvStopHeartBeat).

(** [cleanup]. *)
Definition cleanup : M unit :=
  sc ← getConn;
  setConn {| cfg := None; rest := None; SequenceCounter := SequenceCounter sc;
             connQueryID := connQueryID sc; connSQLState := connSQLState sc |}.

(** [Close]: the error of [FuncCloseSession] is only logged. *)
Definition Close : M (option goError) :=
  stopHeartBeat;;
  sc ← getConn;
  r ← deref (rest sc);
  emit EvCloseSession;;
  match FuncCloseSession r with
  | Some _ => mret tt                  (* glog.V(2).Info(err) *)
  | None => mret tt
  end;;
  cleanup;;
  mret None.

(** ** Spec-modelled converters *)

(** Modelled from the spec: the bind values of converter.go (not in
    src), after §3 "BindValue" and §4.1: fixed-point, boolean and text
    literals, native date/time values (wire type = the timestamp mode),
    values that signal a timestamp-mode change, and 1-D arrays. *)
Inductive bindValue :=
| BVFixed (z : Z)
| BVBool (b : bool)
| BVText (s : string)
| BVTime (ns : Z)
| BVModeSignal (mode : string)
| BVArray (xs : list string).

Fixpoint joinComma (xs : list string) : string :=
  match xs with
  | [] => ""
  | [y] => y
  | y :: ys => String.append y (String "," (joinComma ys))
  end.

Definition timestampModes : list string :=
  ["TIMESTAMP_NTZ"; "TIMESTAMP_LTZ"; "TIMESTAMP_TZ"; "DATE"; "TIME"; "BINARY"].

(** Modelled from the spec: [goTypeToSnowflake], [dataTypeMode],
    [valueToString] and [arrayToString] of converter.go (not in src):
    type tags from a fixed vocabulary, the mode-resolution signal
    ["CHANGE_TYPE"], canonical text, arrays as one comma-delimited
    string with the tag ["ARRAY"]. *)
Definition specConverters : converters bindValue := {|
  goTypeToSnowflake := fun v tsmode =>
    match v with
    | BVFixed _ => "FIXED"
    | BVBool _ => "BOOLEAN"
    | BVText _ => "TEXT"
    | BVTime _ => tsmode
    | BVModeSignal _ => "CHANGE_TYPE"
    | BVArray _ => "ARRAY"
    end;
  dataTypeMode := fun v =>
    match v with
    | BVModeSignal m =>
        if existsb (String.eqb m) timestampModes then Ok m
        else Err (ConvError "unsupported data type")
    | _ => Err (ConvError "not a data type")
    end;
  valueToString := fun v _ =>
    match v with
    | BVFixed z => Ok (FormatInt z)
    | BVBool b => Ok (FormatBool b)
    | BVText s => Ok s
    | BVTime ns => Ok (FormatInt ns)
    | BVModeSignal _ | BVArray _ => Err (ConvError "unsupported type")
    end;
  arrayToString := fun v =>
    match v with
    | BVArray xs => ("ARRAY", joinComma xs)
    | _ => ("ARRAY", "")
    end |}.

(** ** Sample inputs *)

(** An instance of the external names: the spec-modelled converters,
    and [FormatFloat] and the error constants fixed to sample values. *)
Definition sampleExternals : externals bindValue := {|
  conv := specConverters;
  FormatFloat := fun _ => "0";
  (* only reached for names with a non-ASCII byte, which no sample has *)
  MapUnicodeToLower := lowerASCII;
  ErrNoReadOnlyTransaction := 1;
  ErrNoDefaultTransactionIsolationLevel := 2;
  SQLStateFeatureNotSupported := "0A000";
  errMsgNoReadOnlyTransaction := "no readonly mode is supported";
  errMsgNoDefaultTransactionIsolationLevel := "no default isolation level" |}.

Definition nv (i : Z) (v : bindValue) : NamedValue bindValue :=
  {| nvName := ""; nvOrdinal := i; nvValue := v |}.

Definition sampleConfig : Config :=
  {| Database := "DB"; Schema := "PUBLIC"; Role := "SYSADMIN";
     Warehouse := "WH"; Params := ∅ |}.

(** A response payload with the given type id, schema, first rows and
    child ids and types. *)
Definition sampleData (tid : Z) (cols : list string) (rows : list (list (option string)))
    (ids types : string) : execResponseData := {|
  StatementTypeID := tid;
  RowType := map (fun n => {| Name := n; ColType := "fixed" |}) cols;
  RowSet := rows; RowSetBase64 := ""; Total := Z.of_nat (length rows);
  Chunks := []; Qrmk := ""; QueryResultFormat := "json"; Parameters := [];
  SQLState := "00000"; QueryID := "qid"; FinalDatabaseName := "DB2";
  FinalSchemaName := "S2"; FinalRoleName := "R2"; FinalWarehouseName := "WH2";
  ResultIDs := ids; ResultTypes := types |}.

Definition okResponse (d : execResponseData) : execResponse :=
  {| Data := d; Message := ""; Code := ""; Success := true |}.

(** A transport whose POST always answers [resp] and whose GET of a
    child result always fails. *)
Definition sampleRest (resp : execResponse) : snowflakeRestful := {|
  FuncPostQuery := fun _ => (Some resp, None);
  FuncGet := fun _ => HttpErr (TransportError 0);
  FuncCloseSession := Some (TransportError 1);
  Token := "token";
  HeartBeat := None |}.

Definition openState (r : snowflakeRestful) : St :=
  {| conn := {| cfg := Some sampleConfig; rest := Some r; SequenceCounter := 0;
                connQueryID := ""; connSQLState := "" |};
     trace := [] |}.

Definition multiData : execResponseData :=
  sampleData statementTypeIDMulti ["multiple statement execution"] [[Some "2"]]
    "01a-1,01a-2" "12544,12544".

(** ** Notions used to state the properties *)

(** A run of [exec] calls on one connection. *)
Definition execCall (V : Type) : Type :=
  (context * string * bool * bool * list (NamedValue V))%type.

Fixpoint execs {V} (x : externals V) (calls : list (execCall V))
    : M (list (option execResponse * option goError)) :=
  match calls with
  | [] => mret []
  | (ctx, q, nr, ii, bs) :: calls' =>
      r ← exec x ctx q nr ii bs;
      rs ← execs x calls';
      mret (r :: rs)
  end.

(** The sequence numbers of the requests posted in a trace, in order. *)
Fixpoint postedSeqIDs (t : list event) : list Z :=
  match t with
  | [] => []
  | EvPostQuery req :: t' => SequenceID req :: postedSeqIDs t'
  | _ :: t' => postedSeqIDs t'
  end.

(** The state after an [exec] whose request [req] was answered with the
    successful payload [d], on a connection with configuration [c]. *)
Definition execDoneState {V} (x : externals V) (s : St) (c : Config)
    (req : execRequest) (d : execResponseData) : St :=
  {| conn := applySuccess x d c (set_counter (SequenceID req) (conn s));
     trace := trace s ++ [EvPostQuery req] |}.

(** The last returned session parameter whose name, lowered by
    [strings.ToLower], is [k]. *)
Definition lastParam {V} (x : externals V) (k : string) (params : list nameValueParameter)
    : option nameValueParameter :=
  find (fun p => String.eqb (ToLower x (ParamName p)) k) (rev params).

(** The timestamp mode in force and the number of slots used after the
    bind values [pre], from mode [m] and [n] used slots. *)
Fixpoint modeAndSlots {V} (cv : converters V) (m : string) (n : nat)
    (pre : list (NamedValue V)) : string * nat :=
  match pre with
  | [] => (m, n)
  | b :: pre' =>
      if String.eqb (goTypeToSnowflake cv (nvValue b) m) "CHANGE_TYPE" then
        match dataTypeMode cv (nvValue b) with
        | Ok m' => modeAndSlots cv m' n pre'
        | Err _ => modeAndSlots cv m n pre'
        end
      else modeAndSlots cv m (S n) pre'
  end.

(** What the binding loop does with the [i]-th value, from mode [m]. *)
Definition slotSpec {V} (cv : converters V) (m : string) (idx : Z) (bs : list (NamedValue V))
    (entries : list (string * execBindParameter)) (i : nat) (b : NamedValue V) : Prop :=
  let pre := modeAndSlots cv m 0 (firstn i bs) in
  let post := modeAndSlots cv m 0 (firstn (S i) bs) in
  let t := goTypeToSnowflake cv (nvValue b) (fst pre) in
  if String.eqb t "CHANGE_TYPE" then
    dataTypeMode cv (nvValue b) = Ok (fst post) /\ snd post = snd pre
  else
    fst post = fst pre /\ snd post = S (snd pre) /\
    exists e, nth_error entries (snd pre) = Some (Itoa (idx + Z.of_nat (snd pre)), e) /\
      (if String.eqb t "ARRAY" then arrayToString cv (nvValue b) = (BindType e, BindValue e)
       else BindType e = t /\ valueToString cv (nvValue b) (fst pre) = Ok (BindValue e)).

(** The call [exec(ctx, "SELECT 1", false, false, nil)]. *)
Definition selectCall : execCall bindValue := (emptyCtx, "SELECT 1", false, false, []).

(** The sample open connection with its counter at [n]. *)
Definition openStateAt (r : snowflakeRestful) (n : Z) : St :=
  {| conn := set_counter n (conn (openState r)); trace := [] |}.

Definition dmlData (row : list (option string)) (cols : list string) : execResponseData :=
  sampleData statementTypeIDInsert cols [row] "" "".

Definition dmlResponse2 : execResponse := okResponse (dmlData [Some "2"] ["n"]).

(** A response carrying the multi-statement type id and no column schema. *)
Definition noSchemaMultiData : execResponseData :=
  sampleData statementTypeIDMulti [] [] "" "".

(** A response carrying the multi-statement type id whose first column is
    not the multi-statement marker, with the row a DML response would have. *)
Definition plainMultiIdData : execResponseData :=
  sampleData statementTypeIDMulti ["a"] [[Some "2"]] "" "".

(** The state after [exec] has posted [req] and before it looks at the
    response: counter advanced, request recorded, session unchanged. *)
Definition postedState (s : St) (req : execRequest) : St :=
  {| conn := set_counter (SequenceID req) (conn s); trace := trace s ++ [EvPostQuery req] |}.

(** A failed response whose status code is empty. *)
Definition emptyCodeFailure : execResponse :=
  {| Data := dmlData [] []; Message := "failure"; Code := ""; Success := false |}.

(** The state [Close] leaves behind on a connection with config [c]. *)
Definition closedState (s : St) (c : Config) : St :=
  {| conn := {| cfg := None; rest := None; SequenceCounter := SequenceCounter (conn s);
                connQueryID := connQueryID (conn s); connSQLState := connSQLState (conn s) |};
     trace := trace s ++ (if keepAliveEnabled c then [EvStopHeartBeat] else []) ++
              [EvCloseSession] |}.

(** The fetch of [path] fails: [FuncGet] errs or the body does not decode. *)
Definition fetchFails (r : snowflakeRestful) (path : string) : bool :=
  match FuncGet r path with
  | HttpErr _ => true
  | HttpOk (BodyMalformed _) => true
  | HttpOk (BodyJSON _) => false
  end.

(** Bind values with a mode change, a timestamp and an array. *)
Definition sampleBinds : list (NamedValue bindValue) :=
  [nv 1 (BVFixed 3); nv 2 (BVModeSignal "TIMESTAMP_LTZ"); nv 3 (BVTime 7);
   nv 4 (BVArray ["a"; "b"])].

Definition sampleBindEntries : list (string * execBindParameter) :=
  [("1", {| BindType := "FIXED"; BindValue := "3" |});
   ("2", {| BindType := "TIMESTAMP_LTZ"; BindValue := "7" |});
   ("3", {| BindType := "ARRAY"; BindValue := "a,b" |})].

(** A transport answering every POST with [resp] and every GET with [get]. *)
Definition restWith (resp : execResponse) (get : string -> httpGet) : snowflakeRestful := {|
  FuncPostQuery := fun _ => (Some resp, None);
  FuncGet := get;
  FuncCloseSession := None;
  Token := "token";
  HeartBeat := None |}.

(** A transport whose POST fails with [e], returning [data] along. *)
Definition failingRest (data : option execResponse) (e : goError) : snowflakeRestful := {|
  FuncPostQuery := fun _ => (data, Some e);
  FuncGet := fun _ => HttpErr (TransportError 0);
  FuncCloseSession := None;
  Token := "token";
  HeartBeat := None |}.

(** The state after the child-result GETs of [children], in order. *)
Definition afterGets (s : St) (children : list childResult) : St :=
  {| conn := conn s;
     trace := trace s ++ map (fun ch => EvGet (queryResultPath (cid ch))) children |}.

(** The fetch of child [ch] returns a response, which counts [k] rows in
    [ExecContext]: its first-row sum when it is DML, nothing otherwise. *)
Definition childCount (r : snowflakeRestful) (ch : childResult) (k : Z) : Prop :=
  exists cd, FuncGet r (queryResultPath (cid ch)) = HttpOk (BodyJSON (Some cd)) /\
    (if isDml (StatementTypeID (Data cd)) then updateRows (Data cd) = Some (Ok k) else k = 0).

(** The fetch of child [ch] returns the response [cd]. *)
Definition childFetched (r : snowflakeRestful) (ch : childResult) (cd : execResponse) : Prop :=
  FuncGet r (queryResultPath (cid ch)) = HttpOk (BodyJSON (Some cd)).

(** Child results of [multiData]: two DML statements with 2 and 3 rows. *)
Definition childGet (path : string) : httpGet :=
  if String.eqb path (queryResultPath "01a-1") then
    HttpOk (BodyJSON (Some (okResponse (dmlData [Some "2"] ["n"]))))
  else if String.eqb path (queryResultPath "01a-2") then
    HttpOk (BodyJSON (Some (okResponse (dmlData [Some "3"] ["n"]))))
  else HttpErr (TransportError 2).

Definition multiChildren : list childResult :=
  [{| cid := "01a-1"; ctyp := "12544" |}; {| cid := "01a-2"; ctyp := "12544" |}].

(** Child results of [multiData]: the first is a DML result counting 2
    rows, the fetch of any other gives [second]. *)
Definition childGetThen (second : httpGet) (path : string) : httpGet :=
  if String.eqb path (queryResultPath "01a-1") then
    HttpOk (BodyJSON (Some (okResponse (dmlData [Some "2"] ["n"]))))
  else second.

(** A failed response with a numeric status code. *)
Definition codedFailure : execResponse :=
  {| Data := dmlData [] []; Message := "session expired"; Code := "390112"; Success := false |}.

(** A context carrying [v] as the internal-query flag. *)
Definition internalCtx (v : goAny) : context := Build_context None None (Some v).

Ltac msimpl :=
  simpl in *;
  unfold mbind, M_bind, mret, M_ret, getConn, setConn, emit, deref, panic in *;
  simpl in *.

(** ** Helper lemmas *)

Lemma exec_counter_trace {V} (x : externals V) ctx q nr ii bs s r s' :
  exec x ctx q nr ii bs s = Some (r, s') ->
  SequenceCounter (conn s') = wrap_uint64 (SequenceCounter (conn s) + 1) /\
  (trace s' = trace s \/
   exists req, trace s' = trace s ++ [EvPostQuery req] /\
               SequenceID req = wrap_uint64 (SequenceCounter (conn s) + 1)).
Proof.
  unfold exec. msimpl. intros H.
  repeat (case_match; simplify_eq/=; msimpl); split; eauto.
Qed.

Lemma wrap_uint64_add_l a b : wrap_uint64 (wrap_uint64 a + b) = wrap_uint64 (a + b).
Proof. unfold wrap_uint64. apply Z.add_mod_idemp_l. lia. Qed.

Lemma postedSeqIDs_app t1 t2 : postedSeqIDs (t1 ++ t2) = postedSeqIDs t1 ++ postedSeqIDs t2.
Proof. induction t1 as [|[] t1 IH]; simpl; rewrite ?IH; reflexivity. Qed.

Lemma seqIDs_shift c n :
  map (fun k => wrap_uint64 (wrap_uint64 (c + 1) + Z.of_nat k)) (seq 1 n) =
  map (fun k => wrap_uint64 (c + Z.of_nat k)) (seq 2 n).
Proof.
  rewrite <- (seq_shift n 1), map_map. apply map_ext. intros k.
  rewrite wrap_uint64_add_l. f_equal. lia.
Qed.

Lemma execs_counter_trace {V} (x : externals V) calls s rs s' :
  0 <= SequenceCounter (conn s) < 2 ^ 64 ->
  execs x calls s = Some (rs, s') ->
  SequenceCounter (conn s') =
    wrap_uint64 (SequenceCounter (conn s) + Z.of_nat (length calls)) /\
  exists t, trace s' = trace s ++ t /\
    sublist (postedSeqIDs t)
      (map (fun k => wrap_uint64 (SequenceCounter (conn s) + Z.of_nat k))
           (seq 1 (length calls))).
Proof.
  revert s rs. induction calls as [|[[[[ctx q] nr] ii] bs] calls IH]; intros s rs Hc H.
  - msimpl. simplify_eq/=. split.
    + unfold wrap_uint64. rewrite Z.add_0_r. symmetry. apply Z.mod_small. exact Hc.
    + exists []. rewrite app_nil_r. split; [reflexivity|constructor].
  - msimpl.
    destruct (exec x ctx q nr ii bs s) as [[r s1]|] eqn:He; [|discriminate].
    destruct (execs x calls s1) as [[rs' s2]|] eqn:Hes; [|discriminate].
    simplify_eq/=.
    destruct (exec_counter_trace x ctx q nr ii bs s r s1 He) as [Hc1 Ht1].
    assert (Hr : 0 <= SequenceCounter (conn s1) < 2 ^ 64).
    { rewrite Hc1. unfold wrap_uint64. apply Z.mod_pos_bound. lia. }
    destruct (IH s1 rs' Hr Hes) as [Hc2 [t2 [Ht2 Hsub]]].
    rewrite Hc1, seqIDs_shift in Hsub. rewrite Hc1 in Hc2.
    split.
    + rewrite Hc2, wrap_uint64_add_l. f_equal. lia.
    + destruct Ht1 as [Ht1 | [req [Ht1 Hreq]]].
      * exists t2. rewrite Ht2, Ht1. split; [reflexivity|].
        simpl. apply sublist_cons. exact Hsub.
      * exists (EvPostQuery req :: t2). rewrite Ht2, Ht1, <- app_assoc.
        split; [reflexivity|]. simpl. rewrite Hreq, Z.add_1_r.
        apply sublist_skip. exact Hsub.
Qed.

Lemma exec_success {V} (x : externals V) ctx q nr ii bs s c r b d n :
  cfg (conn s) = Some c -> rest (conn s) = Some r ->
  buildBindings (conv x) bs = Ok b ->
  jsonMarshalable (buildRequest ctx q nr ii (wrap_uint64 (SequenceCounter (conn s) + 1)) b) = true ->
  FuncPostQuery r (buildRequest ctx q nr ii (wrap_uint64 (SequenceCounter (conn s) + 1)) b)
    = (Some d, None) ->
  Success d = true -> statusCode (Code d) = inr n ->
  exec x ctx q nr ii bs s =
    Some ((Some d, None),
          execDoneState x s c
            (buildRequest ctx q nr ii (wrap_uint64 (SequenceCounter (conn s) + 1)) b) (Data d)).
Proof.
  intros Hc Hr Hb Hj Hp Hs Hn. unfold exec. msimpl.
  rewrite Hb, Hc. simpl. rewrite Hj. simpl. rewrite Hr. simpl. rewrite Hp.
  simpl. rewrite Hn, Hs. simpl. rewrite Hc. reflexivity.
Qed.

Lemma execs_repeat_success {V} (x : externals V) (call : execCall V) N s c r d n :
  cfg (conn s) = Some c -> rest (conn s) = Some r ->
  (let '(ctx, q, nr, ii, bs) := call in
   exists b, buildBindings (conv x) bs = Ok b /\
     forall counter, jsonMarshalable (buildRequest ctx q nr ii counter b) = true) ->
  (forall req, FuncPostQuery r req = (Some d, None)) ->
  Success d = true -> statusCode (Code d) = inr n ->
  exists rs s', execs x (repeat call N) s = Some (rs, s') /\
    rest (conn s') = Some r /\ exists c', cfg (conn s') = Some c'.
Proof.
  destruct call as [[[[ctx q] nr] ii] bs].
  intros Hc Hr [b [Hb Hj]] Hp Hs Hn. revert s c Hc Hr.
  induction N as [|N IH]; intros s c Hc Hr.
  - exists [], s. msimpl. eauto.
  - cbn [repeat execs]. unfold mbind at 1, M_bind at 1.
    rewrite (exec_success x ctx q nr ii bs s c r b d n Hc Hr Hb (Hj _) (Hp _) Hs Hn).
    destruct (IH (execDoneState x s c
                   (buildRequest ctx q nr ii (wrap_uint64 (SequenceCounter (conn s) + 1)) b)
                   (Data d)) _ eq_refl Hr) as [rs [s' [E Hs']]].
    msimpl. rewrite E. msimpl. eauto.
Qed.

Lemma sublist_Forall_lt (y : Z) (l1 l2 : list Z) :
  sublist l1 l2 -> Forall (Z.lt y) l2 -> Forall (Z.lt y) l1.
Proof.
  induction 1 as [|z k1 k2 Hs IH|z k1 k2 Hs IH]; intros Hf.
  - constructor.
  - inversion Hf; subst. constructor; auto.
  - inversion Hf; subst. auto.
Qed.

Lemma sublist_StronglySorted (l1 l2 : list Z) :
  sublist l1 l2 -> StronglySorted Z.lt l2 -> StronglySorted Z.lt l1.
Proof.
  induction 1 as [|y k1 k2 Hs IH|y k1 k2 Hs IH]; intros H2.
  - constructor.
  - inversion H2 as [|? ? Hs2 Hf]; subst. constructor; [auto|].
    eapply sublist_Forall_lt; eauto.
  - inversion H2; subst. auto.
Qed.

Lemma seqIDs_no_wrap c n :
  0 <= c -> c + Z.of_nat n < 2 ^ 64 ->
  map (fun k => wrap_uint64 (c + Z.of_nat k)) (seq 1 n) = map (fun k => c + Z.of_nat k) (seq 1 n).
Proof.
  intros H0 H1. apply map_ext_in. intros k Hk. apply in_seq in Hk.
  unfold wrap_uint64. apply Z.mod_small. lia.
Qed.

Lemma seqIDs_sorted c a n : StronglySorted Z.lt (map (fun k => c + Z.of_nat k) (seq a n)).
Proof.
  revert a. induction n as [|n IH]; intros a; simpl; constructor; [apply IH|].
  apply List.Forall_forall. intros y Hy. apply in_map_iff in Hy as [k [<- Hk]].
  apply in_seq in Hk. lia.
Qed.

(** ** Properties of connection.go *)

(** C4 (amended).  Every [exec] call takes the next value of the
    connection's uint64 sequence counter: after [n] calls from counter
    [c] the counter is [(c + n) mod 2^64], and the requests issued by
    the calls carry, in order, numbers from [(c + 1) mod 2^64, ...,
    (c + n) mod 2^64], the k-th call using [(c + k) mod 2^64].  While
    [c + n < 2^64] (for a fresh connection: during its first
    [2^64 - 1] calls) they strictly increase and never repeat. *)
Theorem exec_sequence_numbers {V} (x : externals V) (calls : list (execCall V)) s rs s' :
  0 <= SequenceCounter (conn s) < 2 ^ 64 ->
  execs x calls s = Some (rs, s') ->
  SequenceCounter (conn s') =
    wrap_uint64 (SequenceCounter (conn s) + Z.of_nat (length calls)) /\
  exists t, trace s' = trace s ++ t /\
    sublist (postedSeqIDs t)
      (map (fun k => wrap_uint64 (SequenceCounter (conn s) + Z.of_nat k))
           (seq 1 (length calls))) /\
    (SequenceCounter (conn s) + Z.of_nat (length calls) < 2 ^ 64 ->
     StronglySorted Z.lt (postedSeqIDs t)).
Proof.
  intros Hc H. destruct (execs_counter_trace x calls s rs s' Hc H) as [Hn [t [Ht Hsub]]].
  split; [exact Hn|]. exists t. split; [exact Ht|]. split; [exact Hsub|].
  intros Hlt. rewrite seqIDs_no_wrap in Hsub by lia.
  eapply sublist_StronglySorted; [exact Hsub|apply seqIDs_sorted].
Qed.

(** ** Witnesses and counterexamples *)

Lemma exec_sequence_numbers_witness :
  exists rs s', execs sampleExternals [selectCall; selectCall] (openState (sampleRest dmlResponse2))
                = Some (rs, s') /\
  SequenceCounter (conn s') = wrap_uint64 (0 + Z.of_nat 2) /\
  exists t, trace s' = [] ++ t /\
    sublist (postedSeqIDs t) (map (fun k => wrap_uint64 (0 + Z.of_nat k)) (seq 1 2)) /\
    (0 + Z.of_nat 2 < 2 ^ 64 -> StronglySorted Z.lt (postedSeqIDs t)).
Proof.
  eexists. eexists. split; [vm_compute; reflexivity|].
  eapply (exec_sequence_numbers sampleExternals [selectCall; selectCall]
           (openState (sampleRest dmlResponse2))).
  - split; [apply Z.leb_le | apply Z.ltb_lt]; reflexivity.
  - vm_compute. reflexivity.
Defined.

(** C4 fails at the wrap-around of the uint64 counter: after [2^64 - 2]
    calls on a fresh connection, the next two calls issue requests
    numbered [2^64 - 1] and then [0]. *)
Lemma exec_sequence_numbers_counterexample :
  exists rs s1,
    execs sampleExternals (repeat selectCall (Z.to_nat (2 ^ 64 - 2)))
      (openState (sampleRest dmlResponse2)) = Some (rs, s1) /\
    SequenceCounter (conn s1) = 2 ^ 64 - 2 /\
    exists rs2 s2, execs sampleExternals [selectCall; selectCall] s1 = Some (rs2, s2) /\
      postedSeqIDs (trace s2) = postedSeqIDs (trace s1) ++ [2 ^ 64 - 1; 0].
Proof.
  destruct (execs_repeat_success sampleExternals selectCall (Z.to_nat (2 ^ 64 - 2))
              (openState (sampleRest dmlResponse2)) sampleConfig (sampleRest dmlResponse2)
              dmlResponse2 (-1) eq_refl eq_refl)
    as [rs [s1 [E [Hr [c' Hc']]]]].
  { exists None. split; [reflexivity|]. intros. reflexivity. }
  { intros req. reflexivity. }
  { reflexivity. }
  { reflexivity. }
  exists rs, s1. split; [exact E|].
  assert (H0 : 0 <= SequenceCounter (conn (openState (sampleRest dmlResponse2))) < 2 ^ 64).
  { split; [apply Z.leb_le | apply Z.ltb_lt]; reflexivity. }
  destruct (execs_counter_trace _ _ _ _ _ H0 E) as [Hn _].
  rewrite repeat_length, Z2Nat.id in Hn by (apply Z.leb_le; reflexivity).
  assert (Hs1 : SequenceCounter (conn s1) = 2 ^ 64 - 2) by (rewrite Hn; reflexivity).
  split; [exact Hs1|].
  clear E H0 Hn.
  unfold selectCall. cbn [execs]. unfold mbind at 1, M_bind at 1.
  rewrite (exec_success sampleExternals emptyCtx "SELECT 1" false false [] s1 c'
             (sampleRest dmlResponse2) None dmlResponse2 (-1) Hc' Hr eq_refl eq_refl
             eq_refl eq_refl eq_refl).
  unfold mbind, M_bind.
  erewrite (exec_success sampleExternals emptyCtx "SELECT 1" false false []);
    [| reflexivity | exact Hr | reflexivity.. ].
  msimpl. eexists. eexists. split; [reflexivity|].
  unfold execDoneState. cbn [trace]. rewrite <- app_assoc, postedSeqIDs_app.
  rewrite Hs1. reflexivity.
Qed.

(** ** The dispatch after a successful [exec] *)

Lemma ExecContext_success {V} (x : externals V) ctx q bs s c r b d n nr ii :
  cfg (conn s) = Some c -> rest (conn s) = Some r ->
  isInternal ctx = Ok ii -> isAsyncMode ctx = Ok nr ->
  buildBindings (conv x) bs = Ok b ->
  jsonMarshalable (buildRequest ctx q nr ii (wrap_uint64 (SequenceCounter (conn s) + 1)) b) = true ->
  FuncPostQuery r (buildRequest ctx q nr ii (wrap_uint64 (SequenceCounter (conn s) + 1)) b)
    = (Some d, None) ->
  Success d = true -> statusCode (Code d) = inr n ->
  ExecContext x ctx q bs s =
    execDispatch d (execDoneState x s c
      (buildRequest ctx q nr ii (wrap_uint64 (SequenceCounter (conn s) + 1)) b) (Data d)).
Proof.
  intros Hc Hr Hi Ha Hb Hj Hp Hs Hn.
  unfold ExecContext, mbind, M_bind, getConn. simpl. rewrite Hr, Hi, Ha.
  rewrite (exec_success x ctx q nr ii bs s c r b d n Hc Hr Hb Hj Hp Hs Hn).
  reflexivity.
Qed.

Lemma QueryContext_success {V} (x : externals V) ctx q bs s c r b d n nr ii :
  cfg (conn s) = Some c -> rest (conn s) = Some r ->
  isInternal ctx = Ok ii -> isAsyncMode ctx = Ok nr ->
  buildBindings (conv x) bs = Ok b ->
  jsonMarshalable (buildRequest ctx q nr ii (wrap_uint64 (SequenceCounter (conn s) + 1)) b) = true ->
  FuncPostQuery r (buildRequest ctx q nr ii (wrap_uint64 (SequenceCounter (conn s) + 1)) b)
    = (Some d, None) ->
  Success d = true -> statusCode (Code d) = inr n ->
  QueryContext x ctx q bs s =
    queryDispatch d (execDoneState x s c
      (buildRequest ctx q nr ii (wrap_uint64 (SequenceCounter (conn s) + 1)) b) (Data d)).
Proof.
  intros Hc Hr Hi Ha Hb Hj Hp Hs Hn.
  unfold QueryContext, mbind, M_bind, getConn. simpl. rewrite Hr, Hi, Ha.
  rewrite (exec_success x ctx q nr ii bs s c r b d n Hc Hr Hb Hj Hp Hs Hn).
  reflexivity.
Qed.

Lemma isDml_multi : isDml statementTypeIDMulti = false.
Proof. reflexivity. Qed.

(** C10: a successful response with the multi-statement type id and an
    empty column schema makes [isMultiStmt] index [RowType[0]] out of
    range: both [ExecContext] and [QueryContext] panic (no result). *)
Theorem multi_stmt_empty_schema_panics {V} (x : externals V) ctx q bs s c r b d n nr ii :
  cfg (conn s) = Some c -> rest (conn s) = Some r ->
  isInternal ctx = Ok ii -> isAsyncMode ctx = Ok nr ->
  buildBindings (conv x) bs = Ok b ->
  jsonMarshalable (buildRequest ctx q nr ii (wrap_uint64 (SequenceCounter (conn s) + 1)) b) = true ->
  FuncPostQuery r (buildRequest ctx q nr ii (wrap_uint64 (SequenceCounter (conn s) + 1)) b)
    = (Some d, None) ->
  Success d = true -> statusCode (Code d) = inr n ->
  StatementTypeID (Data d) = statementTypeIDMulti -> RowType (Data d) = [] ->
  isMultiStmt (Data d) = None /\
  ExecContext x ctx q bs s = None /\ QueryContext x ctx q bs s = None.
Proof.
  intros Hc Hr Hi Ha Hb Hj Hp Hs Hn Ht Hrt.
  assert (Hm : isMultiStmt (Data d) = None).
  { unfold isMultiStmt. rewrite Ht, Hrt. reflexivity. }
  split; [exact Hm|]. split.
  - rewrite (ExecContext_success x ctx q bs s c r b d n nr ii Hc Hr Hi Ha Hb Hj Hp Hs Hn).
    unfold execDispatch. rewrite Ht, isDml_multi, Hm. reflexivity.
  - rewrite (QueryContext_success x ctx q bs s c r b d n nr ii Hc Hr Hi Ha Hb Hj Hp Hs Hn).
    unfold queryDispatch, mbind, M_bind, getConn. rewrite Hm. reflexivity.
Qed.

Lemma multi_stmt_empty_schema_panics_witness :
  isMultiStmt noSchemaMultiData = None /\
  ExecContext sampleExternals emptyCtx "SELECT 1; SELECT 2" []
    (openState (sampleRest (okResponse noSchemaMultiData))) = None /\
  QueryContext sampleExternals emptyCtx "SELECT 1; SELECT 2" []
    (openState (sampleRest (okResponse noSchemaMultiData))) = None.
Proof.
  apply (multi_stmt_empty_schema_panics sampleExternals emptyCtx "SELECT 1; SELECT 2" []
           (openState (sampleRest (okResponse noSchemaMultiData))) sampleConfig
           (sampleRest (okResponse noSchemaMultiData)) None (okResponse noSchemaMultiData)
           (-1) false false); reflexivity.
Defined.

(** C2 (amended): after a successful [exec] whose response carries the
    multi-statement type id [0x1000] and a non-empty column schema,
    [ExecContext] continues with the multi-statement branch when the first
    column is named "multiple statement execution", and otherwise returns
    [ResultNoRows]: [0x1000] lies outside the DML band, so no row count is
    read in either case. *)
Theorem multi_sentinel_dispatch {V} (x : externals V) ctx q bs s c r b d n nr ii col cols :
  cfg (conn s) = Some c -> rest (conn s) = Some r ->
  isInternal ctx = Ok ii -> isAsyncMode ctx = Ok nr ->
  buildBindings (conv x) bs = Ok b ->
  jsonMarshalable (buildRequest ctx q nr ii (wrap_uint64 (SequenceCounter (conn s) + 1)) b) = true ->
  FuncPostQuery r (buildRequest ctx q nr ii (wrap_uint64 (SequenceCounter (conn s) + 1)) b)
    = (Some d, None) ->
  Success d = true -> statusCode (Code d) = inr n ->
  StatementTypeID (Data d) = statementTypeIDMulti -> RowType (Data d) = col :: cols ->
  let s1 := execDoneState x s c
              (buildRequest ctx q nr ii (wrap_uint64 (SequenceCounter (conn s) + 1)) b)
              (Data d) in
  isDml (StatementTypeID (Data d)) = false /\
  (Name col = "multiple statement execution" -> ExecContext x ctx q bs s = execMulti d s1) /\
  (Name col <> "multiple statement execution" ->
     ExecContext x ctx q bs s = Some (Ok ResultNoRows, s1)).
Proof.
  intros Hc Hr Hi Ha Hb Hj Hp Hs Hn Ht Hrt s1.
  rewrite (ExecContext_success x ctx q bs s c r b d n nr ii Hc Hr Hi Ha Hb Hj Hp Hs Hn).
  fold s1. rewrite Ht. split; [reflexivity|].
  unfold execDispatch. rewrite Ht, isDml_multi. unfold isMultiStmt. rewrite Ht, Hrt.
  simpl. split.
  - intros Hname. rewrite Hname. reflexivity.
  - intros Hname. apply String.eqb_neq in Hname. rewrite Hname. reflexivity.
Qed.

Lemma multi_sentinel_dispatch_witness :
  let d := okResponse multiData in
  let s := openState (sampleRest d) in
  let s1 := execDoneState sampleExternals s sampleConfig
              (buildRequest emptyCtx "SELECT 1; SELECT 2" false false
                 (wrap_uint64 (SequenceCounter (conn s) + 1)) None) (Data d) in
  isDml (StatementTypeID (Data d)) = false /\
  ("multiple statement execution" = "multiple statement execution" ->
     ExecContext sampleExternals emptyCtx "SELECT 1; SELECT 2" [] s = execMulti d s1) /\
  ("multiple statement execution" <> "multiple statement execution" ->
     ExecContext sampleExternals emptyCtx "SELECT 1; SELECT 2" [] s = Some (Ok ResultNoRows, s1)).
Proof.
  apply (multi_sentinel_dispatch sampleExternals emptyCtx "SELECT 1; SELECT 2" []
           (openState (sampleRest (okResponse multiData))) sampleConfig
           (sampleRest (okResponse multiData)) None (okResponse multiData)
           (-1) false false {| Name := "multiple statement execution"; ColType := "fixed" |} []);
    reflexivity.
Defined.

(** C2 fails for a first column named otherwise: the response is not
    treated as DML (which would report the 2 rows of its first row) but
    as a statement without rows. *)
Lemma multi_sentinel_dispatch_counterexample :
  isDml (StatementTypeID plainMultiIdData) = false /\
  updateRows plainMultiIdData = Some (Ok 2) /\
  exists s1, ExecContext sampleExternals emptyCtx "INSERT INTO t VALUES (1),(2)" []
               (openState (sampleRest (okResponse plainMultiIdData)))
             = Some (Ok ResultNoRows, s1).
Proof.
  split; [reflexivity|]. split; [vm_compute; reflexivity|].
  eexists. vm_compute. reflexivity.
Qed.

(** ** DML row counts *)

Lemma wrap_int64_add_l a b : wrap_int64 (wrap_int64 a + b) = wrap_int64 (a + b).
Proof.
  unfold wrap_int64.
  replace ((a + 2 ^ 63) mod 2 ^ 64 - 2 ^ 63 + b + 2 ^ 63)
    with ((a + 2 ^ 63) mod 2 ^ 64 + b) by ring.
  rewrite Z.add_mod_idemp_l by lia. f_equal. f_equal. ring.
Qed.

Lemma updateRows_loop_sum row rows vs : forall i c,
  (forall j v, nth_error vs j = Some v ->
     exists str, nth_error row (i + j)%nat = Some (Some str) /\ ParseInt str = inr v) ->
  updateRows_loop (row :: rows) i (length vs) (wrap_int64 c) =
    Some (Ok (wrap_int64 (c + fold_right Z.add 0 vs))).
Proof.
  induction vs as [|v vs IH]; intros i c Hcells.
  - simpl. rewrite Z.add_0_r. reflexivity.
  - destruct (Hcells 0%nat v eq_refl) as [str [Hrow Hp]].
    rewrite Nat.add_0_r in Hrow.
    simpl. rewrite Hrow, Hp. rewrite wrap_int64_add_l.
    rewrite IH.
    + f_equal. f_equal. f_equal. simpl. ring.
    + intros j w Hj. destruct (Hcells (S j) w Hj) as [str' [Hr' Hp']].
      exists str'. rewrite <- Nat.add_succ_comm in Hr'. split; assumption.
Qed.

(** C3 (amended): after a successful [exec] whose response is DML and
    whose first row holds, for each declared column, a cell that parses as
    an int64 [v_i], [ExecContext] returns the sum of the [v_i] wrapped to
    int64, the insert id [-1] and the response's query id. *)
Theorem dml_affected_rows {V} (x : externals V) ctx q bs s c r b d n nr ii row rows vs :
  cfg (conn s) = Some c -> rest (conn s) = Some r ->
  isInternal ctx = Ok ii -> isAsyncMode ctx = Ok nr ->
  buildBindings (conv x) bs = Ok b ->
  jsonMarshalable (buildRequest ctx q nr ii (wrap_uint64 (SequenceCounter (conn s) + 1)) b) = true ->
  FuncPostQuery r (buildRequest ctx q nr ii (wrap_uint64 (SequenceCounter (conn s) + 1)) b)
    = (Some d, None) ->
  Success d = true -> statusCode (Code d) = inr n ->
  isDml (StatementTypeID (Data d)) = true ->
  RowSet (Data d) = row :: rows ->
  length vs = length (RowType (Data d)) ->
  (forall j v, nth_error vs j = Some v ->
     exists str, nth_error row j = Some (Some str) /\ ParseInt str = inr v) ->
  ExecContext x ctx q bs s =
    Some (Ok (snowflakeResult (wrap_int64 (fold_right Z.add 0 vs)) (-1) (QueryID (Data d))),
          execDoneState x s c
            (buildRequest ctx q nr ii (wrap_uint64 (SequenceCounter (conn s) + 1)) b) (Data d)).
Proof.
  intros Hc Hr Hi Ha Hb Hj Hp Hs Hn Hdml Hrs Hlen Hcells.
  rewrite (ExecContext_success x ctx q bs s c r b d n nr ii Hc Hr Hi Ha Hb Hj Hp Hs Hn).
  unfold execDispatch. rewrite Hdml.
  assert (Hu : updateRows (Data d) = Some (Ok (wrap_int64 (fold_right Z.add 0 vs)))).
  { unfold updateRows. rewrite Hrs, <- Hlen.
    pose proof (updateRows_loop_sum row rows vs 0 0 Hcells) as E.
    change (wrap_int64 0) with 0 in E. rewrite E. reflexivity. }
  rewrite Hu. reflexivity.
Qed.

Lemma dml_affected_rows_witness :
  ExecContext sampleExternals emptyCtx "INSERT INTO t VALUES (1),(2)" []
    (openState (sampleRest dmlResponse2)) =
  Some (Ok (snowflakeResult (wrap_int64 (fold_right Z.add 0 [2])) (-1)
              (QueryID (Data dmlResponse2))),
        execDoneState sampleExternals (openState (sampleRest dmlResponse2)) sampleConfig
          (buildRequest emptyCtx "INSERT INTO t VALUES (1),(2)" false false
             (wrap_uint64 (SequenceCounter (conn (openState (sampleRest dmlResponse2))) + 1))
             None) (Data dmlResponse2)).
Proof.
  apply (dml_affected_rows sampleExternals emptyCtx "INSERT INTO t VALUES (1),(2)" []
           (openState (sampleRest dmlResponse2)) sampleConfig (sampleRest dmlResponse2)
           None dmlResponse2 (-1) false false [Some "2"] [] [2]); try reflexivity.
  intros j v Hj. destruct j as [|j]; [|destruct j; discriminate].
  simpl in Hj. injection Hj as <-. exists "2". split; reflexivity.
Defined.

(** C3 fails when the counts overflow int64: two cells
    [9223372036854775807] add up to [-2] affected rows. *)
Lemma dml_affected_rows_counterexample :
  exists s1,
    ExecContext sampleExternals emptyCtx "INSERT INTO t SELECT * FROM u" []
      (openState (sampleRest (okResponse
         (dmlData [Some "9223372036854775807"; Some "9223372036854775807"] ["a"; "b"]))))
    = Some (Ok (snowflakeResult (-2) (-1) "qid"), s1) /\
    9223372036854775807 + 9223372036854775807 <> -2.
Proof.
  eexists. split; [vm_compute; reflexivity | lia].
Qed.

(** ** Failed responses *)

(** C5 (amended): when the server answers [exec] without a transport
    error, a non-empty status code that [strconv.Atoi] rejects makes
    [exec] return the response together with the [NumError], whatever the
    success flag; otherwise, with the success flag false, [exec] returns
    no response and a Snowflake error built from the parsed code ([-1]
    for an empty code), the SQL state, the message and the query id. The
    session is not updated in either case. *)
Theorem exec_failed_response {V} (x : externals V) ctx q nr ii bs s c r b d :
  cfg (conn s) = Some c -> rest (conn s) = Some r ->
  buildBindings (conv x) bs = Ok b ->
  let req := buildRequest ctx q nr ii (wrap_uint64 (SequenceCounter (conn s) + 1)) b in
  jsonMarshalable req = true ->
  FuncPostQuery r req = (Some d, None) ->
  (forall e, Code d <> "" -> Atoi (Code d) = inl e ->
     exec x ctx q nr ii bs s = Some ((Some d, Some (numError e)), postedState s req)) /\
  (forall n, Success d = false ->
     (Code d = "" /\ n = -1) \/ (Code d <> "" /\ Atoi (Code d) = inr n) ->
     exec x ctx q nr ii bs s =
       Some ((None, Some (SnowflakeError n (SQLState (Data d)) (Message d) (QueryID (Data d)))),
             postedState s req)).
Proof.
  intros Hc Hr Hb req Hj Hp.
  split.
  - intros e Hne Ha. unfold exec. msimpl.
    rewrite Hb, Hc. simpl. fold req. rewrite Hj. simpl. rewrite Hr. simpl. rewrite Hp.
    simpl. unfold statusCode. apply String.eqb_neq in Hne. rewrite Hne, Ha. reflexivity.
  - intros n Hs Hcode. unfold exec. msimpl.
    rewrite Hb, Hc. simpl. fold req. rewrite Hj. simpl. rewrite Hr. simpl. rewrite Hp.
    simpl. unfold statusCode.
    destruct Hcode as [[He ->] | [Hne Ha]].
    + rewrite He. simpl. rewrite Hs. reflexivity.
    + apply String.eqb_neq in Hne. rewrite Hne, Ha. simpl. rewrite Hs. reflexivity.
Qed.

Lemma exec_failed_response_witness :
  let s := openState (sampleRest emptyCodeFailure) in
  let req := buildRequest emptyCtx "SELECT 1" false false
               (wrap_uint64 (SequenceCounter (conn s) + 1)) None in
  (forall e, Code emptyCodeFailure <> "" -> Atoi (Code emptyCodeFailure) = inl e ->
     exec sampleExternals emptyCtx "SELECT 1" false false [] s =
       Some ((Some emptyCodeFailure, Some (numError e)), postedState s req)) /\
  (forall n, Success emptyCodeFailure = false ->
     (Code emptyCodeFailure = "" /\ n = -1) \/
     (Code emptyCodeFailure <> "" /\ Atoi (Code emptyCodeFailure) = inr n) ->
     exec sampleExternals emptyCtx "SELECT 1" false false [] s =
       Some ((None, Some (SnowflakeError n (SQLState (Data emptyCodeFailure))
                            (Message emptyCodeFailure) (QueryID (Data emptyCodeFailure)))),
             postedState s req)).
Proof.
  apply (exec_failed_response sampleExternals emptyCtx "SELECT 1" false false []
           (openState (sampleRest emptyCodeFailure)) sampleConfig
           (sampleRest emptyCodeFailure) None emptyCodeFailure); reflexivity.
Defined.

(** C5 fails for an empty status code: [strconv.Atoi] rejects it, yet
    [exec] reports no parse error and drops the response; it returns a
    Snowflake error with code [-1]. *)
Lemma exec_failed_response_counterexample :
  Atoi (Code emptyCodeFailure) = inl ("Atoi", "", ErrSyntax) /\
  exists s', exec sampleExternals emptyCtx "SELECT 1" false false []
               (openState (sampleRest emptyCodeFailure)) =
             Some ((None, Some (SnowflakeError (-1) "00000" "failure" "qid")), s').
Proof.
  split; [reflexivity|]. eexists. vm_compute. reflexivity.
Qed.

(** ** The session update of a successful [exec] *)

Lemma populateSessionParameters_lookup {V} (x : externals V) params m k :
  populateSessionParameters x params m !! k =
    match lastParam x k params with
    | Some p => Some (paramString x (ParamValue p))
    | None => m !! k
    end.
Proof.
  induction params as [|p params IH] using rev_ind; [reflexivity|].
  unfold populateSessionParameters in *. rewrite fold_left_app. simpl.
  unfold lastParam in *. rewrite rev_app_distr. simpl.
  destruct (String.eqb (ToLower x (ParamName p)) k) eqn:E.
  - apply String.eqb_eq in E. subst k. apply lookup_insert_eq.
  - apply String.eqb_neq in E. rewrite lookup_insert_ne by exact E. exact IH.
Qed.

(** C7: a successful [exec] sets the session's database, schema, role
    and warehouse to the response's final names, its last query id and
    SQL state to the response's, and stores under each name lowered by
    [strings.ToLower] the value of the last parameter of that name, integers, floats and
    booleans formatted to text and strings copied unchanged; the other
    entries of the map are kept. *)
Theorem exec_session_update {V} (x : externals V) ctx q nr ii bs s c r b d n :
  cfg (conn s) = Some c -> rest (conn s) = Some r ->
  buildBindings (conv x) bs = Ok b ->
  let req := buildRequest ctx q nr ii (wrap_uint64 (SequenceCounter (conn s) + 1)) b in
  jsonMarshalable req = true ->
  FuncPostQuery r req = (Some d, None) ->
  Success d = true -> statusCode (Code d) = inr n ->
  exists s' c',
    exec x ctx q nr ii bs s = Some ((Some d, None), s') /\
    cfg (conn s') = Some c' /\
    Database c' = FinalDatabaseName (Data d) /\ Schema c' = FinalSchemaName (Data d) /\
    Role c' = FinalRoleName (Data d) /\ Warehouse c' = FinalWarehouseName (Data d) /\
    connQueryID (conn s') = QueryID (Data d) /\ connSQLState (conn s') = SQLState (Data d) /\
    (forall k, Params c' !! k =
       match lastParam x k (Parameters (Data d)) with
       | Some p => Some (paramString x (ParamValue p))
       | None => Params c !! k
       end) /\
    (forall z, paramString x (PInt64 z) = FormatInt z) /\
    (forall f, paramString x (PFloat64 f) = FormatFloat x f) /\
    (forall bv, paramString x (PBool bv) = FormatBool bv) /\
    (forall str, paramString x (PString str) = str).
Proof.
  intros Hc Hr Hb req Hj Hp Hs Hn.
  rewrite (exec_success x ctx q nr ii bs s c r b d n Hc Hr Hb Hj Hp Hs Hn).
  eexists. eexists. split; [reflexivity|].
  split; [reflexivity|].
  do 6 (split; [reflexivity|]).
  split; [intros k; apply populateSessionParameters_lookup|].
  repeat split.
Qed.

Lemma exec_session_update_witness :
  let s := openState (sampleRest dmlResponse2) in
  let req := buildRequest emptyCtx "USE DATABASE DB2" false false
               (wrap_uint64 (SequenceCounter (conn s) + 1)) None in
  exists s' c',
    exec sampleExternals emptyCtx "USE DATABASE DB2" false false [] s =
      Some ((Some dmlResponse2, None), s') /\
    cfg (conn s') = Some c' /\
    Database c' = FinalDatabaseName (Data dmlResponse2) /\
    Schema c' = FinalSchemaName (Data dmlResponse2) /\
    Role c' = FinalRoleName (Data dmlResponse2) /\
    Warehouse c' = FinalWarehouseName (Data dmlResponse2) /\
    connQueryID (conn s') = QueryID (Data dmlResponse2) /\
    connSQLState (conn s') = SQLState (Data dmlResponse2) /\
    (forall k, Params c' !! k =
       match lastParam sampleExternals k (Parameters (Data dmlResponse2)) with
       | Some p => Some (paramString sampleExternals (ParamValue p))
       | None => Params sampleConfig !! k
       end) /\
    (forall z, paramString sampleExternals (PInt64 z) = FormatInt z) /\
    (forall f, paramString sampleExternals (PFloat64 f) = FormatFloat sampleExternals f) /\
    (forall bv, paramString sampleExternals (PBool bv) = FormatBool bv) /\
    (forall str, paramString sampleExternals (PString str) = str).
Proof.
  apply (exec_session_update sampleExternals emptyCtx "USE DATABASE DB2" false false []
           (openState (sampleRest dmlResponse2)) sampleConfig (sampleRest dmlResponse2)
           None dmlResponse2 (-1)); reflexivity.
Defined.

(** ** Transactions *)

(** C6 (amended): [BeginTx] with [ReadOnly], or else with an isolation
    level other than the default, returns the feature-not-supported
    Snowflake error and leaves the state unchanged (no request is
    recorded). Otherwise a closed connection gives [ErrBadConn], still
    without a request, and an open one runs [exec] on ["BEGIN"]: its
    error is returned, and without error a transaction handle. *)
Theorem BeginTx_cases {V} (x : externals V) ctx opts s :
  (ReadOnly opts = true ->
     BeginTx x ctx opts s =
       Some (Err (SnowflakeError (ErrNoReadOnlyTransaction x) (SQLStateFeatureNotSupported x)
                    (errMsgNoReadOnlyTransaction x) ""), s)) /\
  (ReadOnly opts = false -> Isolation opts <> LevelDefault ->
     BeginTx x ctx opts s =
       Some (Err (SnowflakeError (ErrNoDefaultTransactionIsolationLevel x)
                    (SQLStateFeatureNotSupported x)
                    (errMsgNoDefaultTransactionIsolationLevel x) ""), s)) /\
  (ReadOnly opts = false -> Isolation opts = LevelDefault -> rest (conn s) = None ->
     BeginTx x ctx opts s = Some (Err ErrBadConn, s)) /\
  (ReadOnly opts = false -> Isolation opts = LevelDefault -> rest (conn s) <> None ->
     (exec x ctx "BEGIN" false false [] s = None -> BeginTx x ctx opts s = None) /\
     (forall data err s', exec x ctx "BEGIN" false false [] s = Some ((data, err), s') ->
        BeginTx x ctx opts s =
          Some (match err with Some e => Err e | None => Ok mkSnowflakeTx end, s'))).
Proof.
  unfold BeginTx. split; [|split; [|split]].
  - intros Hro. rewrite Hro. reflexivity.
  - intros Hro Hiso. rewrite Hro. apply Z.eqb_neq in Hiso. rewrite Hiso. reflexivity.
  - intros Hro Hiso Hr. rewrite Hro, Hiso. unfold mbind, M_bind, getConn. simpl.
    rewrite Hr. reflexivity.
  - intros Hro Hiso Hr. rewrite Hro, Hiso. unfold mbind, M_bind, getConn. simpl.
    destruct (rest (conn s)) as [r|]; [|contradiction]. split.
    + intros He. rewrite He. reflexivity.
    + intros data err s' He. rewrite He. destruct err; reflexivity.
Qed.

Lemma BeginTx_cases_witness :
  let opts := {| Isolation := LevelDefault; ReadOnly := true |} in
  let s := openState (sampleRest dmlResponse2) in
  (ReadOnly opts = true ->
     BeginTx sampleExternals emptyCtx opts s =
       Some (Err (SnowflakeError (ErrNoReadOnlyTransaction sampleExternals)
                    (SQLStateFeatureNotSupported sampleExternals)
                    (errMsgNoReadOnlyTransaction sampleExternals) ""), s)) /\
  (ReadOnly opts = false -> Isolation opts <> LevelDefault ->
     BeginTx sampleExternals emptyCtx opts s =
       Some (Err (SnowflakeError (ErrNoDefaultTransactionIsolationLevel sampleExternals)
                    (SQLStateFeatureNotSupported sampleExternals)
                    (errMsgNoDefaultTransactionIsolationLevel sampleExternals) ""), s)) /\
  (ReadOnly opts = false -> Isolation opts = LevelDefault -> rest (conn s) = None ->
     BeginTx sampleExternals emptyCtx opts s = Some (Err ErrBadConn, s)) /\
  (ReadOnly opts = false -> Isolation opts = LevelDefault -> rest (conn s) <> None ->
     (exec sampleExternals emptyCtx "BEGIN" false false [] s = None ->
        BeginTx sampleExternals emptyCtx opts s = None) /\
     (forall data err s', exec sampleExternals emptyCtx "BEGIN" false false [] s =
                            Some ((data, err), s') ->
        BeginTx sampleExternals emptyCtx opts s =
          Some (match err with Some e => Err e | None => Ok mkSnowflakeTx end, s'))).
Proof.
  exact (BeginTx_cases sampleExternals emptyCtx {| Isolation := LevelDefault; ReadOnly := true |}
           (openState (sampleRest dmlResponse2))).
Defined.

(** C6 fails on a closed connection: with the default options no
    ["BEGIN"] is executed and no transaction handle is returned. *)
Lemma BeginTx_cases_counterexample :
  exists s', Close (openState (sampleRest dmlResponse2)) = Some (None, s') /\
    BeginTx sampleExternals emptyCtx {| Isolation := LevelDefault; ReadOnly := false |} s'
      = Some (Err ErrBadConn, s') /\
    postedSeqIDs (trace s') = [].
Proof.
  eexists. split; [vm_compute; reflexivity|]. split; vm_compute; reflexivity.
Qed.

(** ** Closing the connection *)

Lemma Close_result s c r :
  cfg (conn s) = Some c -> rest (conn s) = Some r ->
  Close s = Some (None, closedState s c).
Proof.
  intros Hc Hr. unfold Close, stopHeartBeat, cleanup, closedState. msimpl.
  rewrite Hc. simpl. destruct (keepAliveEnabled c); simpl; rewrite Hr; simpl.
  - destruct (FuncCloseSession r); simpl; rewrite <- app_assoc; reflexivity.
  - destruct (FuncCloseSession r); reflexivity.
Qed.

(** C9 (amended): on an open connection, [Close] stops the heartbeat
    (when session keep-alive is enabled) before the session-close call,
    drops the transport and config references and returns nil whatever
    that call returns. Afterwards [ExecContext], [QueryContext],
    [PrepareContext] and [Ping] fail with [ErrBadConn], and so does
    [BeginTx] with the default options; with [ReadOnly] or another
    isolation level [BeginTx] still reports feature-not-supported first. *)
Theorem Close_then_bad_conn {V} (x : externals V) s c r :
  cfg (conn s) = Some c -> rest (conn s) = Some r ->
  exists s', Close s = Some (None, s') /\
    rest (conn s') = None /\ cfg (conn s') = None /\
    trace s' = trace s ++ (if keepAliveEnabled c then [EvStopHeartBeat] else []) ++
               [EvCloseSession] /\
    (forall ctx q args, ExecContext x ctx q args s' = Some (Err ErrBadConn, s')) /\
    (forall ctx q args, QueryContext x ctx q args s' = Some (Err ErrBadConn, s')) /\
    (forall q, PrepareContext q s' = Some (Err ErrBadConn, s')) /\
    (forall ctx, Ping x ctx s' = Some (Some ErrBadConn, s')) /\
    (forall ctx opts, ReadOnly opts = false -> Isolation opts = LevelDefault ->
       BeginTx x ctx opts s' = Some (Err ErrBadConn, s')) /\
    (forall ctx opts, ReadOnly opts = true ->
       BeginTx x ctx opts s' =
         Some (Err (SnowflakeError (ErrNoReadOnlyTransaction x) (SQLStateFeatureNotSupported x)
                      (errMsgNoReadOnlyTransaction x) ""), s')) /\
    (forall ctx opts, ReadOnly opts = false -> Isolation opts <> LevelDefault ->
       BeginTx x ctx opts s' =
         Some (Err (SnowflakeError (ErrNoDefaultTransactionIsolationLevel x)
                      (SQLStateFeatureNotSupported x)
                      (errMsgNoDefaultTransactionIsolationLevel x) ""), s')).
Proof.
  intros Hc Hr. exists (closedState s c).
  split; [exact (Close_result s c r Hc Hr)|].
  do 3 (split; [reflexivity|]).
  split; [intros; reflexivity|].
  split; [intros; reflexivity|].
  split; [intros; reflexivity|].
  split; [intros; reflexivity|].
  split; [|split].
  - intros ctx opts Hro Hiso. unfold BeginTx. rewrite Hro, Hiso. reflexivity.
  - intros ctx opts Hro. unfold BeginTx. rewrite Hro. reflexivity.
  - intros ctx opts Hro Hiso. unfold BeginTx. rewrite Hro.
    apply Z.eqb_neq in Hiso. rewrite Hiso. reflexivity.
Qed.

Lemma Close_then_bad_conn_witness :
  let s := openState (sampleRest dmlResponse2) in
  exists s', Close s = Some (None, s') /\
    rest (conn s') = None /\ cfg (conn s') = None /\
    trace s' = trace s ++ (if keepAliveEnabled sampleConfig then [EvStopHeartBeat] else []) ++
               [EvCloseSession] /\
    (forall ctx q args, ExecContext sampleExternals ctx q args s' = Some (Err ErrBadConn, s')) /\
    (forall ctx q args, QueryContext sampleExternals ctx q args s' = Some (Err ErrBadConn, s')) /\
    (forall q, PrepareContext q s' = Some (Err ErrBadConn, s')) /\
    (forall ctx, Ping sampleExternals ctx s' = Some (Some ErrBadConn, s')) /\
    (forall ctx opts, ReadOnly opts = false -> Isolation opts = LevelDefault ->
       BeginTx sampleExternals ctx opts s' = Some (Err ErrBadConn, s')) /\
    (forall ctx opts, ReadOnly opts = true ->
       BeginTx sampleExternals ctx opts s' =
         Some (Err (SnowflakeError (ErrNoReadOnlyTransaction sampleExternals)
                      (SQLStateFeatureNotSupported sampleExternals)
                      (errMsgNoReadOnlyTransaction sampleExternals) ""), s')) /\
    (forall ctx opts, ReadOnly opts = false -> Isolation opts <> LevelDefault ->
       BeginTx sampleExternals ctx opts s' =
         Some (Err (SnowflakeError (ErrNoDefaultTransactionIsolationLevel sampleExternals)
                      (SQLStateFeatureNotSupported sampleExternals)
                      (errMsgNoDefaultTransactionIsolationLevel sampleExternals) ""), s')).
Proof.
  apply (Close_then_bad_conn sampleExternals (openState (sampleRest dmlResponse2))
           sampleConfig (sampleRest dmlResponse2)); reflexivity.
Defined.

(** C9 fails for [BeginTx] with [ReadOnly] after [Close]: it reports
    feature-not-supported, not a bad connection. *)
Lemma Close_then_bad_conn_counterexample :
  exists s', Close (openState (sampleRest dmlResponse2)) = Some (None, s') /\
    rest (conn s') = None /\
    BeginTx sampleExternals emptyCtx {| Isolation := LevelDefault; ReadOnly := true |} s'
      = Some (Err (SnowflakeError 1 "0A000" (errMsgNoReadOnlyTransaction sampleExternals) ""), s').
Proof.
  eexists. split; [vm_compute; reflexivity|]. split; vm_compute; reflexivity.
Qed.

(** ** Multi-statement children *)

Lemma getQueryResult_eq s c r path :
  cfg (conn s) = Some c -> rest (conn s) = Some r ->
  getQueryResult path s =
    Some (match FuncGet r path with
          | HttpErr e => (None, Some e)
          | HttpOk (BodyMalformed e) => (None, Some e)
          | HttpOk (BodyJSON respd) => (respd, None)
          end, {| conn := conn s; trace := trace s ++ [EvGet path] |}).
Proof.
  intros Hc Hr. unfold getQueryResult. msimpl. rewrite Hc. simpl. rewrite Hr. simpl.
  destruct (FuncGet r path) as [e|[e|respd]]; reflexivity.
Qed.

Lemma execChildren_fetch_failure r children : forall u s c v s',
  cfg (conn s) = Some c -> rest (conn s) = Some r ->
  Exists (fun ch => fetchFails r (queryResultPath (cid ch)) = true) children ->
  execChildren children u s <> Some (Ok v, s').
Proof.
  induction children as [|ch chs IH]; intros u s c v s' Hc Hr Hex H;
    [inversion Hex|].
  cbn [execChildren] in H. unfold mbind at 1, M_bind at 1 in H.
  rewrite (getQueryResult_eq s c r _ Hc Hr) in H.
  destruct (FuncGet r (queryResultPath (cid ch))) as [e|[e|respd]] eqn:Eg;
    [msimpl; discriminate | msimpl; discriminate |].
  assert (Htail : Exists (fun ch => fetchFails r (queryResultPath (cid ch)) = true) chs).
  { inversion Hex as [? ? Hh|? ? Ht]; subst; [|exact Ht].
    unfold fetchFails in Hh. rewrite Eg in Hh. discriminate. }
  destruct respd as [cd|]; msimpl; [|discriminate].
  destruct (isDml (StatementTypeID (Data cd))).
  - destruct (updateRows (Data cd)) as [[cnt|e]|]; [| |discriminate].
    + eapply IH; [| | exact Htail | exact H]; simpl; eassumption.
    + destruct (Atoi (Code cd)); msimpl; discriminate.
  - eapply IH; [| | exact Htail | exact H]; simpl; eassumption.
Qed.

Lemma isMultiStmt_true_id data :
  isMultiStmt data = Some true -> StatementTypeID data = statementTypeIDMulti.
Proof.
  unfold isMultiStmt. destruct (Z.eqb (StatementTypeID data) statementTypeIDMulti) eqn:E.
  - intros _. apply Z.eqb_eq. exact E.
  - discriminate.
Qed.

(** ** The child loops *)

Lemma St_eta (s : St) : {| conn := conn s; trace := trace s |} = s.
Proof. destruct s; reflexivity. Qed.

Lemma afterGets_app s l1 l2 : afterGets (afterGets s l1) l2 = afterGets s (l1 ++ l2).
Proof. unfold afterGets. simpl. rewrite map_app, app_assoc. reflexivity. Qed.

Lemma afterGets_nil s : afterGets s [] = s.
Proof. unfold afterGets. simpl. rewrite app_nil_r. apply St_eta. Qed.

Lemma execChildren_prefix r pre ks post : forall c s c0,
  cfg (conn s) = Some c0 -> rest (conn s) = Some r ->
  Forall2 (childCount r) pre ks ->
  execChildren (pre ++ post) (wrap_int64 c) s =
    execChildren post (wrap_int64 (c + fold_right Z.add 0 ks)) (afterGets s pre).
Proof.
  intros c s c0 Hc Hr Hf. revert c s Hc Hr.
  induction Hf as [|ch k pre ks [cd [Hg Hk]] Hf IH]; intros c s Hc Hr.
  - simpl. rewrite Z.add_0_r, afterGets_nil. reflexivity.
  - cbn [app execChildren]. unfold mbind at 1, M_bind at 1.
    rewrite (getQueryResult_eq s c0 r _ Hc Hr), Hg.
    cbv beta iota. unfold mbind at 1, M_bind at 1, deref, mret, M_ret. cbv beta iota.
    replace (afterGets s (ch :: pre)) with (afterGets (afterGets s [ch]) pre)
      by (rewrite afterGets_app; reflexivity).
    destruct (isDml (StatementTypeID (Data cd))).
    + rewrite Hk, wrap_int64_add_l.
      transitivity (execChildren (pre ++ post) (wrap_int64 (c + k)) (afterGets s [ch]));
        [reflexivity|].
      rewrite (IH (c + k) (afterGets s [ch]) Hc Hr). simpl. rewrite Z.add_assoc. reflexivity.
    + subst k.
      transitivity (execChildren (pre ++ post) (wrap_int64 c) (afterGets s [ch]));
        [reflexivity|].
      rewrite (IH c (afterGets s [ch]) Hc Hr). simpl. reflexivity.
Qed.

Lemma queryChildren_prefix r pre cds post : forall chain s c0,
  cfg (conn s) = Some c0 -> rest (conn s) = Some r ->
  Forall2 (childFetched r) pre cds ->
  queryChildren (pre ++ post) chain s =
    queryChildren post (chain ++ map Data cds) (afterGets s pre).
Proof.
  intros chain s c0 Hc Hr Hf. revert chain s Hc Hr.
  induction Hf as [|ch cd pre cds Hg Hf IH]; intros chain s Hc Hr.
  - simpl. rewrite app_nil_r, afterGets_nil. reflexivity.
  - cbn [app queryChildren]. unfold mbind at 1, M_bind at 1.
    unfold childFetched in Hg.
    rewrite (getQueryResult_eq s c0 r _ Hc Hr), Hg.
    cbv beta iota. unfold mbind at 1, M_bind at 1, deref, mret, M_ret. cbv beta iota.
    replace (afterGets s (ch :: pre)) with (afterGets (afterGets s [ch]) pre)
      by (rewrite afterGets_app; reflexivity).
    transitivity (queryChildren (pre ++ post) (chain ++ [Data cd]) (afterGets s [ch]));
      [reflexivity|].
    rewrite (IH (chain ++ [Data cd]) (afterGets s [ch]) Hc Hr), <- app_assoc. reflexivity.
Qed.

Lemma ExecContext_multi_eq {V} (x : externals V) ctx q args s c r b d n nr ii children :
  cfg (conn s) = Some c -> rest (conn s) = Some r ->
  isInternal ctx = Ok ii -> isAsyncMode ctx = Ok nr ->
  buildBindings (conv x) args = Ok b ->
  jsonMarshalable (buildRequest ctx q nr ii (wrap_uint64 (SequenceCounter (conn s) + 1)) b) = true ->
  FuncPostQuery r (buildRequest ctx q nr ii (wrap_uint64 (SequenceCounter (conn s) + 1)) b)
    = (Some d, None) ->
  Success d = true -> statusCode (Code d) = inr n ->
  isMultiStmt (Data d) = Some true ->
  getChildResults (ResultIDs (Data d)) (ResultTypes (Data d)) = Some children ->
  ExecContext x ctx q args s =
    match execChildren children 0
            (execDoneState x s c
               (buildRequest ctx q nr ii (wrap_uint64 (SequenceCounter (conn s) + 1)) b) (Data d))
    with
    | Some (Ok u, s2) => Some (Ok (snowflakeResult u (-1) (connQueryID (conn s2))), s2)
    | Some (Err e, s2) => Some (Err e, s2)
    | None => None
    end.
Proof.
  intros Hc Hr Hi Ha Hb Hj Hp Hs Hn Hm Hch.
  rewrite (ExecContext_success x ctx q args s c r b d n nr ii Hc Hr Hi Ha Hb Hj Hp Hs Hn).
  unfold execDispatch. rewrite (isMultiStmt_true_id _ Hm), isDml_multi, Hm.
  unfold execMulti, mbind, M_bind, deref, mret, M_ret, getConn. rewrite Hch.
  cbv beta iota. destruct (execChildren _ _ _) as [[[u|e] s2]|]; reflexivity.
Qed.

Lemma QueryContext_multi_eq {V} (x : externals V) ctx q args s c r b d n nr ii children :
  cfg (conn s) = Some c -> rest (conn s) = Some r ->
  isInternal ctx = Ok ii -> isAsyncMode ctx = Ok nr ->
  buildBindings (conv x) args = Ok b ->
  jsonMarshalable (buildRequest ctx q nr ii (wrap_uint64 (SequenceCounter (conn s) + 1)) b) = true ->
  FuncPostQuery r (buildRequest ctx q nr ii (wrap_uint64 (SequenceCounter (conn s) + 1)) b)
    = (Some d, None) ->
  Success d = true -> statusCode (Code d) = inr n ->
  isMultiStmt (Data d) = Some true ->
  getChildResults (ResultIDs (Data d)) (ResultTypes (Data d)) = Some children ->
  QueryContext x ctx q args s =
    match queryChildren children []
            (execDoneState x s c
               (buildRequest ctx q nr ii (wrap_uint64 (SequenceCounter (conn s) + 1)) b) (Data d))
    with
    | Some (Ok [], s2) =>
        Some (Ok {| rowsRowType := RowType (Data d); rowsChain := [Data d];
                    rowsQueryID := QueryID (Data d) |}, s2)
    | Some (Ok chain, s2) =>
        Some (Ok {| rowsRowType := RowType (Data d); rowsChain := chain;
                    rowsQueryID := QueryID (Data d) |}, s2)
    | Some (Err e, s2) => Some (Err e, s2)
    | None => None
    end.
Proof.
  intros Hc Hr Hi Ha Hb Hj Hp Hs Hn Hm Hch.
  rewrite (QueryContext_success x ctx q args s c r b d n nr ii Hc Hr Hi Ha Hb Hj Hp Hs Hn).
  unfold queryDispatch, mbind, M_bind, deref, mret, M_ret, getConn. rewrite Hm, Hch.
  cbv beta iota. destruct (queryChildren _ _ _) as [[[[|cd chain]|e] s2]|]; reflexivity.
Qed.

(** C1 (code bug): [getQueryResult] reports a failed fetch as no response
    and an error. In a multi-statement [ExecContext] where the fetch of
    some child fails, [ExecContext] never returns a result; and when the
    children before the failing one were read and counted, it panics
    there, since the loop reads [childData.Code] of the nil child response
    before its nil check, so the child's error is never returned. *)
Theorem multi_child_fetch_failure {V} (x : externals V) ctx q bs s c r b d n nr ii children :
  cfg (conn s) = Some c -> rest (conn s) = Some r ->
  isInternal ctx = Ok ii -> isAsyncMode ctx = Ok nr ->
  buildBindings (conv x) bs = Ok b ->
  jsonMarshalable (buildRequest ctx q nr ii (wrap_uint64 (SequenceCounter (conn s) + 1)) b) = true ->
  FuncPostQuery r (buildRequest ctx q nr ii (wrap_uint64 (SequenceCounter (conn s) + 1)) b)
    = (Some d, None) ->
  Success d = true -> statusCode (Code d) = inr n ->
  isMultiStmt (Data d) = Some true ->
  getChildResults (ResultIDs (Data d)) (ResultTypes (Data d)) = Some children ->
  Exists (fun ch => fetchFails r (queryResultPath (cid ch)) = true) children ->
  (forall path s0 c0, cfg (conn s0) = Some c0 -> rest (conn s0) = Some r ->
     fetchFails r path = true ->
     exists e, getQueryResult path s0 =
       Some ((None, Some e), {| conn := conn s0; trace := trace s0 ++ [EvGet path] |})) /\
  (forall v s', ExecContext x ctx q bs s <> Some (Ok v, s')) /\
  (forall pre ks ch post, children = pre ++ ch :: post -> Forall2 (childCount r) pre ks ->
     fetchFails r (queryResultPath (cid ch)) = true ->
     ExecContext x ctx q bs s = None).
Proof.
  intros Hc Hr Hi Ha Hb Hj Hp Hs Hn Hm Hch Hex.
  split.
  { intros path s0 c0 Hc0 Hr0 Hf. rewrite (getQueryResult_eq s0 c0 r path Hc0 Hr0).
    unfold fetchFails in Hf. destruct (FuncGet r path) as [e|[e|respd]];
      [exists e; reflexivity | exists e; reflexivity | discriminate]. }
  split.
  - rewrite (ExecContext_success x ctx q bs s c r b d n nr ii Hc Hr Hi Ha Hb Hj Hp Hs Hn).
    set (s1 := execDoneState x s c _ (Data d)).
    assert (Hc1 : exists c1, cfg (conn s1) = Some c1) by (eexists; reflexivity).
    assert (Hr1 : rest (conn s1) = Some r) by exact Hr.
    destruct Hc1 as [c1 Hc1].
    unfold execDispatch. rewrite (isMultiStmt_true_id _ Hm), isDml_multi, Hm.
    unfold execMulti, mbind at 1, M_bind at 1. rewrite Hch. simpl.
    intros v s' H. unfold mbind at 1, M_bind at 1 in H.
    destruct (execChildren children 0 s1) as [[[u|e] s2]|] eqn:E; [| discriminate | discriminate].
    eapply (execChildren_fetch_failure r children 0 s1 c1 u s2 Hc1 Hr1 Hex). exact E.
  - intros pre ks ch post Hsplit Hf Hg. subst children.
    rewrite (ExecContext_multi_eq x ctx q bs s c r b d n nr ii _
               Hc Hr Hi Ha Hb Hj Hp Hs Hn Hm Hch).
    set (s1 := execDoneState x s c _ (Data d)).
    assert (Hr1 : rest (conn s1) = Some r) by exact Hr.
    assert (Hr2 : rest (conn (afterGets s1 pre)) = Some r) by exact Hr.
    pose proof (execChildren_prefix r pre ks (ch :: post) 0 s1 _ eq_refl Hr1 Hf) as E.
    change (wrap_int64 0) with 0 in E. rewrite E.
    cbn [execChildren]. unfold mbind at 1, M_bind at 1.
    rewrite (getQueryResult_eq (afterGets s1 pre) _ r _ eq_refl Hr2).
    unfold fetchFails in Hg.
    destruct (FuncGet r (queryResultPath (cid ch))) as [e|[e|respd]];
      [reflexivity | reflexivity | discriminate].
Qed.

Lemma multi_child_fetch_failure_witness :
  let r := restWith (okResponse multiData) (childGetThen (HttpErr (TransportError 3))) in
  let s := openState r in
  let children := [{| cid := "01a-1"; ctyp := "12544" |}; {| cid := "01a-2"; ctyp := "12544" |}] in
  (forall path s0 c0, cfg (conn s0) = Some c0 -> rest (conn s0) = Some r ->
     fetchFails r path = true ->
     exists e, getQueryResult path s0 =
       Some ((None, Some e), {| conn := conn s0; trace := trace s0 ++ [EvGet path] |})) /\
  (forall v s', ExecContext sampleExternals emptyCtx "SELECT 1; SELECT 2" [] s <> Some (Ok v, s')) /\
  (forall pre ks ch post, children = pre ++ ch :: post -> Forall2 (childCount r) pre ks ->
     fetchFails r (queryResultPath (cid ch)) = true ->
     ExecContext sampleExternals emptyCtx "SELECT 1; SELECT 2" [] s = None).
Proof.
  apply (multi_child_fetch_failure sampleExternals emptyCtx "SELECT 1; SELECT 2" []
           (openState (restWith (okResponse multiData) (childGetThen (HttpErr (TransportError 3)))))
           sampleConfig
           (restWith (okResponse multiData) (childGetThen (HttpErr (TransportError 3))))
           None (okResponse multiData) (-1) false false
           [{| cid := "01a-1"; ctyp := "12544" |}; {| cid := "01a-2"; ctyp := "12544" |}]);
    try reflexivity.
  apply Exists_cons_tl, Exists_cons_hd. reflexivity.
Defined.

(** C1 fails: when the fetch of the first child fails, or the fetch of
    the second after the first was counted, [ExecContext] returns neither
    that child's error nor anything else; it panics. *)
Lemma multi_child_fetch_failure_counterexample :
  fetchFails (sampleRest (okResponse multiData)) (queryResultPath "01a-1") = true /\
  ExecContext sampleExternals emptyCtx "SELECT 1; SELECT 2" []
    (openState (sampleRest (okResponse multiData))) = None /\
  fetchFails (restWith (okResponse multiData) (childGetThen (HttpErr (TransportError 3))))
    (queryResultPath "01a-2") = true /\
  ExecContext sampleExternals emptyCtx "SELECT 1; SELECT 2" []
    (openState (restWith (okResponse multiData) (childGetThen (HttpErr (TransportError 3))))) = None.
Proof.
  repeat split; vm_compute; reflexivity.
Qed.

(** ** Bind parameters *)

Section BindSlots.

Context {V : Type}.
Variable cv : converters V.

Lemma modeAndSlots_shift (l : list (NamedValue V)) : forall m n,
  modeAndSlots cv m (S n) l =
    (fst (modeAndSlots cv m n l), S (snd (modeAndSlots cv m n l))).
Proof.
  induction l as [|b l IH]; intros m n; [reflexivity|].
  simpl. destruct (String.eqb _ "CHANGE_TYPE"); [|apply IH].
  destruct (dataTypeMode cv (nvValue b)); apply IH.
Qed.

Lemma bindLoop_spec (bs : list (NamedValue V)) : forall m idx entries,
  bindLoop cv m idx bs = Ok entries ->
  length entries = snd (modeAndSlots cv m 0 bs) /\
  map fst entries = map (fun k => Itoa (idx + Z.of_nat k)) (seq 0 (length entries)) /\
  (forall i b, nth_error bs i = Some b -> slotSpec cv m idx bs entries i b).
Proof.
  induction bs as [|b bs IH]; intros m idx entries H.
  - simpl in H. injection H as <-. split; [reflexivity|]. split; [reflexivity|].
    intros i b Hi. destruct i; discriminate.
  - simpl in H. unfold slotSpec.
    destruct (String.eqb (goTypeToSnowflake cv (nvValue b) m) "CHANGE_TYPE") eqn:Ect.
    + destruct (dataTypeMode cv (nvValue b)) as [m'|e] eqn:Edm; [|discriminate].
      destruct (IH m' idx entries H) as [P1 [P2 P3]].
      split; [simpl; rewrite Ect, Edm; exact P1|]. split; [exact P2|].
      intros [|i] b0 Hi.
      * simpl in Hi. injection Hi as <-. simpl. rewrite Ect, Edm. simpl.
        split; reflexivity.
      * simpl in Hi. specialize (P3 i b0 Hi). unfold slotSpec in P3.
        cbn [firstn modeAndSlots]. rewrite Ect, Edm. exact P3.
    + set (cnv := if String.eqb (goTypeToSnowflake cv (nvValue b) m) "ARRAY"
                  then Ok (arrayToString cv (nvValue b))
                  else match valueToString cv (nvValue b) m with
                       | Ok v1 => Ok (goTypeToSnowflake cv (nvValue b) m, v1)
                       | Err e => Err e
                       end) in H.
      destruct cnv as [[t' v1]|e] eqn:Ecnv; [|discriminate].
      destruct (bindLoop cv m (idx + 1) bs) as [entries'|e] eqn:Eb; [|discriminate].
      injection H as <-.
      destruct (IH m (idx + 1) entries' Eb) as [P1 [P2 P3]].
      split.
      { simpl. rewrite Ect, modeAndSlots_shift. simpl. rewrite P1. reflexivity. }
      split.
      { simpl. rewrite P2, Z.add_0_r. f_equal.
        rewrite <- (seq_shift (length entries') 0), map_map.
        apply map_ext. intros k. f_equal. lia. }
      intros [|i] b0 Hi.
      * simpl in Hi. injection Hi as <-. simpl. rewrite Ect. simpl.
        split; [reflexivity|]. split; [reflexivity|].
        exists {| BindType := t'; BindValue := v1 |}. rewrite Z.add_0_r.
        split; [reflexivity|]. subst cnv.
        destruct (String.eqb (goTypeToSnowflake cv (nvValue b) m) "ARRAY");
          [injection Ecnv as ->; reflexivity|].
        destruct (valueToString cv (nvValue b) m); [|discriminate].
        injection Ecnv as <- <-. split; reflexivity.
      * simpl in Hi. specialize (P3 i b0 Hi). unfold slotSpec in P3.
        cbn [firstn modeAndSlots]. rewrite Ect, !modeAndSlots_shift. cbn [fst snd].
        destruct (String.eqb (goTypeToSnowflake cv (nvValue b0) _) "CHANGE_TYPE").
        { destruct P3 as [Q1 Q2]. split; [exact Q1|rewrite Q2; reflexivity]. }
        destruct P3 as [Q1 [Q2 [e [Qn Qc]]]].
        split; [exact Q1|]. split; [rewrite Q2; reflexivity|].
        exists e. split; [|exact Qc].
        simpl. rewrite Qn. do 3 f_equal. lia.
Qed.

End BindSlots.

(** C8: when [exec] builds the bindings of a non-empty list of bind
    values, a value typed ["CHANGE_TYPE"] in the current timestamp mode
    sets the mode used for the later values and takes no slot; every other
    value takes the next slot, whose key is the decimal slot number counted
    from 1, holding the type tag and delimited string of [arrayToString]
    for an array and otherwise its type and [valueToString] text in the
    current mode. The entries are keyed ["1"] to ["N"], [N] the number of
    values that are not mode changes. *)
Theorem buildBindings_slots {V} (cv : converters V) bs entries :
  buildBindings cv bs = Ok (Some entries) ->
  length entries = snd (modeAndSlots cv "TIMESTAMP_NTZ" 0 bs) /\
  map fst entries = map (fun k => Itoa (Z.of_nat k)) (seq 1 (length entries)) /\
  (forall i b, nth_error bs i = Some b -> slotSpec cv "TIMESTAMP_NTZ" 1 bs entries i b).
Proof.
  intros H. destruct bs as [|b0 bs']; [discriminate|].
  unfold buildBindings in H.
  destruct (bindLoop cv "TIMESTAMP_NTZ" 1 (b0 :: bs')) as [es|e] eqn:E; [|discriminate].
  injection H as <-.
  destruct (bindLoop_spec cv (b0 :: bs') "TIMESTAMP_NTZ" 1 es E) as [P1 [P2 P3]].
  split; [exact P1|]. split; [|exact P3].
  rewrite P2, <- (seq_shift (length es) 0), map_map.
  apply map_ext. intros k. f_equal. lia.
Qed.

Lemma buildBindings_slots_witness :
  length sampleBindEntries = snd (modeAndSlots specConverters "TIMESTAMP_NTZ" 0 sampleBinds) /\
  map fst sampleBindEntries =
    map (fun k => Itoa (Z.of_nat k)) (seq 1 (length sampleBindEntries)) /\
  (forall i b, nth_error sampleBinds i = Some b ->
     slotSpec specConverters "TIMESTAMP_NTZ" 1 sampleBinds sampleBindEntries i b).
Proof.
  apply (buildBindings_slots specConverters sampleBinds sampleBindEntries).
  vm_compute. reflexivity.
Defined.

(** ** Further properties of connection.go *)

Lemma exec_transport_error_eq {V} (x : externals V) ctx q nr ii bs s c r b data e :
  cfg (conn s) = Some c -> rest (conn s) = Some r ->
  buildBindings (conv x) bs = Ok b ->
  jsonMarshalable (buildRequest ctx q nr ii (wrap_uint64 (SequenceCounter (conn s) + 1)) b) = true ->
  FuncPostQuery r (buildRequest ctx q nr ii (wrap_uint64 (SequenceCounter (conn s) + 1)) b)
    = (data, Some e) ->
  exec x ctx q nr ii bs s =
    Some ((data, Some e),
          postedState s (buildRequest ctx q nr ii (wrap_uint64 (SequenceCounter (conn s) + 1)) b)).
Proof.
  intros Hc Hr Hb Hj Hp. unfold exec. msimpl.
  rewrite Hb, Hc. simpl. rewrite Hj. simpl. rewrite Hr. simpl. rewrite Hp. reflexivity.
Qed.

Lemma exec_bad_code_eq {V} (x : externals V) ctx q nr ii bs s c r b d e :
  cfg (conn s) = Some c -> rest (conn s) = Some r ->
  buildBindings (conv x) bs = Ok b ->
  jsonMarshalable (buildRequest ctx q nr ii (wrap_uint64 (SequenceCounter (conn s) + 1)) b) = true ->
  FuncPostQuery r (buildRequest ctx q nr ii (wrap_uint64 (SequenceCounter (conn s) + 1)) b)
    = (Some d, None) ->
  Code d <> "" -> Atoi (Code d) = inl e ->
  exec x ctx q nr ii bs s =
    Some ((Some d, Some (numError e)),
          postedState s (buildRequest ctx q nr ii (wrap_uint64 (SequenceCounter (conn s) + 1)) b)).
Proof.
  intros Hc Hr Hb Hj Hp Hne Ha. unfold exec. msimpl.
  rewrite Hb, Hc. simpl. rewrite Hj. simpl. rewrite Hr. simpl. rewrite Hp. simpl.
  unfold statusCode. apply String.eqb_neq in Hne. rewrite Hne, Ha. reflexivity.
Qed.

Lemma ExecContext_exec_error {V} (x : externals V) ctx q args s r ii nr data e s' :
  rest (conn s) = Some r -> isInternal ctx = Ok ii -> isAsyncMode ctx = Ok nr ->
  exec x ctx q nr ii args s = Some ((data, Some e), s') ->
  ExecContext x ctx q args s = reportExecError data e s'.
Proof.
  intros Hr Hi Ha He. unfold ExecContext, mbind at 1, M_bind at 1, getConn. simpl.
  rewrite Hr, Hi, Ha. unfold mbind at 1, M_bind at 1. rewrite He. reflexivity.
Qed.

Lemma QueryContext_exec_error {V} (x : externals V) ctx q args s r ii nr data e s' :
  rest (conn s) = Some r -> isInternal ctx = Ok ii -> isAsyncMode ctx = Ok nr ->
  exec x ctx q nr ii args s = Some ((data, Some e), s') ->
  QueryContext x ctx q args s = reportExecError data e s'.
Proof.
  intros Hr Hi Ha He. unfold QueryContext, mbind at 1, M_bind at 1, getConn. simpl.
  rewrite Hr, Hi, Ha. unfold mbind at 1, M_bind at 1. rewrite He. reflexivity.
Qed.

(** [exec] fails before any request when a bind value cannot be
    converted, or when the request cannot be encoded as JSON: it returns
    that error and no response, records no request and leaves the session
    as it was, but the sequence counter has already advanced. *)
Theorem exec_fails_before_request {V} (x : externals V) ctx q nr ii bs s :
  let s1 := {| conn := set_counter (wrap_uint64 (SequenceCounter (conn s) + 1)) (conn s);
               trace := trace s |} in
  (forall e, buildBindings (conv x) bs = Err e ->
     exec x ctx q nr ii bs s = Some ((None, Some e), s1)) /\
  (forall b c, buildBindings (conv x) bs = Ok b -> cfg (conn s) = Some c ->
     jsonMarshalable
       (buildRequest ctx q nr ii (wrap_uint64 (SequenceCounter (conn s) + 1)) b) = false ->
     exec x ctx q nr ii bs s = Some ((None, Some JSONError), s1)).
Proof.
  intros s1. split.
  - intros e Hb. unfold exec. msimpl. rewrite Hb. reflexivity.
  - intros b c Hb Hc Hj. unfold exec. msimpl. rewrite Hb, Hc. simpl. rewrite Hj.
    reflexivity.
Qed.

Lemma exec_fails_before_request_witness :
  exec sampleExternals emptyCtx "SELECT ?" false false [nv 1 (BVModeSignal "NUMBER")]
    (openState (sampleRest dmlResponse2)) =
  Some ((None, Some (ConvError "unsupported data type")),
        {| conn := set_counter (wrap_uint64 (0 + 1)) (conn (openState (sampleRest dmlResponse2)));
           trace := [] |}) /\
  exec sampleExternals (Build_context (Some (AnyOpaque 0)) None None) "SELECT 1" false false []
    (openState (sampleRest dmlResponse2)) =
  Some ((None, Some JSONError),
        {| conn := set_counter (wrap_uint64 (0 + 1)) (conn (openState (sampleRest dmlResponse2)));
           trace := [] |}).
Proof.
  split.
  - apply (proj1 (exec_fails_before_request sampleExternals emptyCtx "SELECT ?" false false
                    [nv 1 (BVModeSignal "NUMBER")] (openState (sampleRest dmlResponse2)))).
    reflexivity.
  - apply (proj2 (exec_fails_before_request sampleExternals
                    (Build_context (Some (AnyOpaque 0)) None None) "SELECT 1" false false []
                    (openState (sampleRest dmlResponse2))) None sampleConfig);
      reflexivity.
Defined.

(** When the transport returns an error, [exec] returns it together with
    whatever response came with it; the request has been recorded, but
    the session (database, schema, role, warehouse, parameters, last query
    id and SQL state) is not updated. *)
Theorem exec_transport_error {V} (x : externals V) ctx q nr ii bs s c r b data e :
  cfg (conn s) = Some c -> rest (conn s) = Some r ->
  buildBindings (conv x) bs = Ok b ->
  let req := buildRequest ctx q nr ii (wrap_uint64 (SequenceCounter (conn s) + 1)) b in
  jsonMarshalable req = true ->
  FuncPostQuery r req = (data, Some e) ->
  exists s', exec x ctx q nr ii bs s = Some ((data, Some e), s') /\
    cfg (conn s') = Some c /\ rest (conn s') = Some r /\
    connQueryID (conn s') = connQueryID (conn s) /\
    connSQLState (conn s') = connSQLState (conn s) /\
    SequenceCounter (conn s') = SequenceID req /\
    trace s' = trace s ++ [EvPostQuery req].
Proof.
  intros Hc Hr Hb req Hj Hp. exists (postedState s req).
  split; [exact (exec_transport_error_eq x ctx q nr ii bs s c r b data e Hc Hr Hb Hj Hp)|].
  unfold postedState. simpl. rewrite Hc, Hr. repeat split.
Qed.

Lemma exec_transport_error_witness :
  let s := openState (failingRest None (TransportError 5)) in
  let req := buildRequest emptyCtx "SELECT 1" false false
               (wrap_uint64 (SequenceCounter (conn s) + 1)) None in
  exists s', exec sampleExternals emptyCtx "SELECT 1" false false [] s =
               Some ((None, Some (TransportError 5)), s') /\
    cfg (conn s') = Some sampleConfig /\ rest (conn s') = Some (failingRest None (TransportError 5)) /\
    connQueryID (conn s') = connQueryID (conn s) /\
    connSQLState (conn s') = connSQLState (conn s) /\
    SequenceCounter (conn s') = SequenceID req /\
    trace s' = trace s ++ [EvPostQuery req].
Proof.
  apply (exec_transport_error sampleExternals emptyCtx "SELECT 1" false false []
           (openState (failingRest None (TransportError 5))) sampleConfig
           (failingRest None (TransportError 5)) None None (TransportError 5));
    reflexivity.
Defined.

(** On an open connection, [ExecContext], [QueryContext] and [Ping] fail
    with a cast error, before any request and without changing the
    connection, when the context's internal-query flag is present but not
    a boolean, or when that flag is fine and the async-mode flag is
    present but not a boolean. *)
Theorem context_flag_cast_errors {V} (x : externals V) ctx q args s r :
  rest (conn s) = Some r ->
  (forall v, ctxIsInternal ctx = Some v -> (forall bv, v <> AnyBool bv) ->
     ExecContext x ctx q args s = Some (Err (CastError v), s) /\
     QueryContext x ctx q args s = Some (Err (CastError v), s) /\
     Ping x ctx s = Some (Some (CastError v), s)) /\
  (forall ii v, isInternal ctx = Ok ii -> ctxAsyncMode ctx = Some v ->
     (forall bv, v <> AnyBool bv) ->
     ExecContext x ctx q args s = Some (Err (CastError v), s) /\
     QueryContext x ctx q args s = Some (Err (CastError v), s) /\
     Ping x ctx s = Some (Some (CastError v), s)).
Proof.
  intros Hr. split.
  - intros v Hv Hnb.
    assert (Hi : isInternal ctx = Err (CastError v)).
    { unfold isInternal, castBool. rewrite Hv.
      destruct v as [bv| | |]; [destruct (Hnb bv eq_refl)| | |]; reflexivity. }
    unfold ExecContext, QueryContext, Ping, mbind, M_bind, getConn. simpl.
    rewrite Hr, Hi. repeat split.
  - intros ii v Hi Hv Hnb.
    assert (Ha : isAsyncMode ctx = Err (CastError v)).
    { unfold isAsyncMode, castBool. rewrite Hv.
      destruct v as [bv| | |]; [destruct (Hnb bv eq_refl)| | |]; reflexivity. }
    unfold ExecContext, QueryContext, Ping, mbind, M_bind, getConn. simpl.
    rewrite Hr, Hi, Ha. repeat split.
Qed.

Lemma context_flag_cast_errors_witness :
  ExecContext sampleExternals (internalCtx (AnyString "yes")) "SELECT 1" []
    (openState (sampleRest dmlResponse2)) =
    Some (Err (CastError (AnyString "yes")), openState (sampleRest dmlResponse2)) /\
  QueryContext sampleExternals (internalCtx (AnyString "yes")) "SELECT 1" []
    (openState (sampleRest dmlResponse2)) =
    Some (Err (CastError (AnyString "yes")), openState (sampleRest dmlResponse2)) /\
  Ping sampleExternals (internalCtx (AnyString "yes")) (openState (sampleRest dmlResponse2)) =
    Some (Some (CastError (AnyString "yes")), openState (sampleRest dmlResponse2)).
Proof.
  apply (proj1 (context_flag_cast_errors sampleExternals (internalCtx (AnyString "yes"))
                  "SELECT 1" [] (openState (sampleRest dmlResponse2)) (sampleRest dmlResponse2)
                  eq_refl) (AnyString "yes") eq_refl).
  intros bv. discriminate.
Defined.

(** When the server's status code is non-empty and not an integer,
    [ExecContext] and [QueryContext] return the [strconv.Atoi] error for
    that code, whatever the success flag; the session is not updated. *)
Theorem unparsable_status_code {V} (x : externals V) ctx q args s c r b d nr ii e :
  cfg (conn s) = Some c -> rest (conn s) = Some r ->
  isInternal ctx = Ok ii -> isAsyncMode ctx = Ok nr ->
  buildBindings (conv x) args = Ok b ->
  let req := buildRequest ctx q nr ii (wrap_uint64 (SequenceCounter (conn s) + 1)) b in
  jsonMarshalable req = true ->
  FuncPostQuery r req = (Some d, None) ->
  Code d <> "" -> Atoi (Code d) = inl e ->
  ExecContext x ctx q args s = Some (Err (numError e), postedState s req) /\
  QueryContext x ctx q args s = Some (Err (numError e), postedState s req).
Proof.
  intros Hc Hr Hi Ha Hb req Hj Hp Hne Hat.
  pose proof (exec_bad_code_eq x ctx q nr ii args s c r b d e Hc Hr Hb Hj Hp Hne Hat) as He.
  split.
  - rewrite (ExecContext_exec_error x ctx q args s r ii nr _ _ _ Hr Hi Ha He).
    unfold reportExecError. rewrite Hat. reflexivity.
  - rewrite (QueryContext_exec_error x ctx q args s r ii nr _ _ _ Hr Hi Ha He).
    unfold reportExecError. rewrite Hat. reflexivity.
Qed.

Lemma unparsable_status_code_witness :
  let d := {| Data := dmlData [] []; Message := "m"; Code := "x1"; Success := true |} in
  let s := openState (sampleRest d) in
  let req := buildRequest emptyCtx "SELECT 1" false false
               (wrap_uint64 (SequenceCounter (conn s) + 1)) None in
  ExecContext sampleExternals emptyCtx "SELECT 1" [] s =
    Some (Err (numError ("Atoi", "x1", ErrSyntax)), postedState s req) /\
  QueryContext sampleExternals emptyCtx "SELECT 1" [] s =
    Some (Err (numError ("Atoi", "x1", ErrSyntax)), postedState s req).
Proof.
  apply (unparsable_status_code sampleExternals emptyCtx "SELECT 1" []
           (openState (sampleRest {| Data := dmlData [] []; Message := "m"; Code := "x1";
                                     Success := true |}))
           sampleConfig
           (sampleRest {| Data := dmlData [] []; Message := "m"; Code := "x1"; Success := true |})
           None {| Data := dmlData [] []; Message := "m"; Code := "x1"; Success := true |}
           false false ("Atoi", "x1", ErrSyntax)); try reflexivity.
  discriminate.
Defined.

(** When the transport returns an error: without a response,
    [ExecContext] and [QueryContext] return that error; with a response
    whose status code is an integer, both panic (the error they report is
    built from [err.Error()] on the nil error of [strconv.Atoi]); with a
    response whose code is not an integer, both return the [Atoi] error. *)
Theorem transport_error_reporting {V} (x : externals V) ctx q args s c r b nr ii data e :
  cfg (conn s) = Some c -> rest (conn s) = Some r ->
  isInternal ctx = Ok ii -> isAsyncMode ctx = Ok nr ->
  buildBindings (conv x) args = Ok b ->
  let req := buildRequest ctx q nr ii (wrap_uint64 (SequenceCounter (conn s) + 1)) b in
  jsonMarshalable req = true ->
  FuncPostQuery r req = (data, Some e) ->
  (data = None ->
     ExecContext x ctx q args s = Some (Err e, postedState s req) /\
     QueryContext x ctx q args s = Some (Err e, postedState s req)) /\
  (forall d n, data = Some d -> Atoi (Code d) = inr n ->
     ExecContext x ctx q args s = None /\ QueryContext x ctx q args s = None) /\
  (forall d e', data = Some d -> Atoi (Code d) = inl e' ->
     ExecContext x ctx q args s = Some (Err (numError e'), postedState s req) /\
     QueryContext x ctx q args s = Some (Err (numError e'), postedState s req)).
Proof.
  intros Hc Hr Hi Ha Hb req Hj Hp.
  pose proof (exec_transport_error_eq x ctx q nr ii args s c r b data e Hc Hr Hb Hj Hp) as He.
  rewrite (ExecContext_exec_error x ctx q args s r ii nr _ _ _ Hr Hi Ha He),
          (QueryContext_exec_error x ctx q args s r ii nr _ _ _ Hr Hi Ha He).
  unfold reportExecError. split; [|split].
  - intros ->. split; reflexivity.
  - intros d n -> Hn. rewrite Hn. split; reflexivity.
  - intros d e' -> He'. rewrite He'. split; reflexivity.
Qed.

Lemma transport_error_reporting_witness :
  let s := openState (failingRest (Some codedFailure) (TransportError 7)) in
  ExecContext sampleExternals emptyCtx "SELECT 1" [] s = None /\
  QueryContext sampleExternals emptyCtx "SELECT 1" [] s = None.
Proof.
  apply (proj1 (proj2 (transport_error_reporting sampleExternals emptyCtx "SELECT 1" []
           (openState (failingRest (Some codedFailure) (TransportError 7))) sampleConfig
           (failingRest (Some codedFailure) (TransportError 7)) None false false
           (Some codedFailure) (TransportError 7) eq_refl eq_refl eq_refl eq_refl eq_refl
           eq_refl eq_refl)) codedFailure 390112 eq_refl).
  reflexivity.
Defined.

(** A multi-statement [ExecContext] whose child results are all fetched
    reports, in the order of the result ids, one GET per child, and
    returns the int64 sum of the row counts of the DML children (the
    others count nothing), the insert id [-1] and the query id of the
    multi-statement response. *)
Theorem multi_exec_sums_children {V} (x : externals V) ctx q args s c r b d n nr ii children ks :
  cfg (conn s) = Some c -> rest (conn s) = Some r ->
  isInternal ctx = Ok ii -> isAsyncMode ctx = Ok nr ->
  buildBindings (conv x) args = Ok b ->
  let req := buildRequest ctx q nr ii (wrap_uint64 (SequenceCounter (conn s) + 1)) b in
  jsonMarshalable req = true ->
  FuncPostQuery r req = (Some d, None) ->
  Success d = true -> statusCode (Code d) = inr n ->
  isMultiStmt (Data d) = Some true ->
  getChildResults (ResultIDs (Data d)) (ResultTypes (Data d)) = Some children ->
  Forall2 (childCount r) children ks ->
  ExecContext x ctx q args s =
    Some (Ok (snowflakeResult (wrap_int64 (fold_right Z.add 0 ks)) (-1) (QueryID (Data d))),
          afterGets (execDoneState x s c req (Data d)) children).
Proof.
  intros Hc Hr Hi Ha Hb req Hj Hp Hs Hn Hm Hch Hf.
  rewrite (ExecContext_multi_eq x ctx q args s c r b d n nr ii children
             Hc Hr Hi Ha Hb Hj Hp Hs Hn Hm Hch).
  fold req.
  assert (Hr1 : rest (conn (execDoneState x s c req (Data d))) = Some r) by exact Hr.
  pose proof (execChildren_prefix r children ks [] 0 (execDoneState x s c req (Data d)) _
                eq_refl Hr1 Hf) as E.
  rewrite app_nil_r in E. change (wrap_int64 0) with 0 in E. rewrite E. reflexivity.
Qed.

Lemma multi_exec_sums_children_witness :
  let s := openState (restWith (okResponse multiData) childGet) in
  let req := buildRequest emptyCtx "INSERT INTO a VALUES (1),(2); INSERT INTO b SELECT * FROM c" false false
               (wrap_uint64 (SequenceCounter (conn s) + 1)) None in
  ExecContext sampleExternals emptyCtx
    "INSERT INTO a VALUES (1),(2); INSERT INTO b SELECT * FROM c" [] s =
    Some (Ok (snowflakeResult (wrap_int64 (fold_right Z.add 0 [2; 3])) (-1)
                (QueryID (Data (okResponse multiData)))),
          afterGets (execDoneState sampleExternals s sampleConfig req (Data (okResponse multiData)))
            multiChildren).
Proof.
  apply (multi_exec_sums_children sampleExternals emptyCtx
           "INSERT INTO a VALUES (1),(2); INSERT INTO b SELECT * FROM c" []
           (openState (restWith (okResponse multiData) childGet)) sampleConfig
           (restWith (okResponse multiData) childGet) None (okResponse multiData) (-1)
           false false multiChildren [2; 3]); try reflexivity.
  repeat constructor.
  - eexists. split; [reflexivity|]. reflexivity.
  - eexists. split; [reflexivity|]. reflexivity.
Defined.

(** A multi-statement [QueryContext] whose child results are all fetched
    returns rows chained over the children's result data in the order of
    the result ids (over the response's own data when it lists no child),
    with the column schema and query id of the multi-statement response. *)
Theorem multi_query_chains_children {V} (x : externals V) ctx q args s c r b d n nr ii children cds :
  cfg (conn s) = Some c -> rest (conn s) = Some r ->
  isInternal ctx = Ok ii -> isAsyncMode ctx = Ok nr ->
  buildBindings (conv x) args = Ok b ->
  let req := buildRequest ctx q nr ii (wrap_uint64 (SequenceCounter (conn s) + 1)) b in
  jsonMarshalable req = true ->
  FuncPostQuery r req = (Some d, None) ->
  Success d = true -> statusCode (Code d) = inr n ->
  isMultiStmt (Data d) = Some true ->
  getChildResults (ResultIDs (Data d)) (ResultTypes (Data d)) = Some children ->
  Forall2 (childFetched r) children cds ->
  QueryContext x ctx q args s =
    Some (Ok {| rowsRowType := RowType (Data d);
                rowsChain := match cds with [] => [Data d] | _ => map Data cds end;
                rowsQueryID := QueryID (Data d) |},
          afterGets (execDoneState x s c req (Data d)) children).
Proof.
  intros Hc Hr Hi Ha Hb req Hj Hp Hs Hn Hm Hch Hf.
  rewrite (QueryContext_multi_eq x ctx q args s c r b d n nr ii children
             Hc Hr Hi Ha Hb Hj Hp Hs Hn Hm Hch).
  fold req.
  assert (Hr1 : rest (conn (execDoneState x s c req (Data d))) = Some r) by exact Hr.
  pose proof (queryChildren_prefix r children cds [] [] (execDoneState x s c req (Data d)) _
                eq_refl Hr1 Hf) as E.
  rewrite app_nil_r in E. rewrite E. simpl. destruct cds; reflexivity.
Qed.

Lemma multi_query_chains_children_witness :
  let s := openState (restWith (okResponse multiData) childGet) in
  let req := buildRequest emptyCtx "SELECT 1; SELECT 2" false false
               (wrap_uint64 (SequenceCounter (conn s) + 1)) None in
  let cds := [okResponse (dmlData [Some "2"] ["n"]); okResponse (dmlData [Some "3"] ["n"])] in
  QueryContext sampleExternals emptyCtx "SELECT 1; SELECT 2" [] s =
    Some (Ok {| rowsRowType := RowType (Data (okResponse multiData));
                rowsChain := match cds with [] => [Data (okResponse multiData)]
                             | _ => map Data cds end;
                rowsQueryID := QueryID (Data (okResponse multiData)) |},
          afterGets (execDoneState sampleExternals s sampleConfig req (Data (okResponse multiData)))
            multiChildren).
Proof.
  apply (multi_query_chains_children sampleExternals emptyCtx "SELECT 1; SELECT 2" []
           (openState (restWith (okResponse multiData) childGet)) sampleConfig
           (restWith (okResponse multiData) childGet) None (okResponse multiData) (-1)
           false false multiChildren
           [okResponse (dmlData [Some "2"] ["n"]); okResponse (dmlData [Some "3"] ["n"])]);
    try reflexivity.
  repeat constructor.
Defined.

(** In a multi-statement [QueryContext], when every child before some
    child is fetched and the fetch of that child fails (transport error
    or undecodable body), [QueryContext] returns that fetch's error after
    the GETs up to that child. *)
Theorem multi_query_child_failure {V} (x : externals V) ctx q args s c r b d n nr ii pre cds ch post e :
  cfg (conn s) = Some c -> rest (conn s) = Some r ->
  isInternal ctx = Ok ii -> isAsyncMode ctx = Ok nr ->
  buildBindings (conv x) args = Ok b ->
  let req := buildRequest ctx q nr ii (wrap_uint64 (SequenceCounter (conn s) + 1)) b in
  jsonMarshalable req = true ->
  FuncPostQuery r req = (Some d, None) ->
  Success d = true -> statusCode (Code d) = inr n ->
  isMultiStmt (Data d) = Some true ->
  getChildResults (ResultIDs (Data d)) (ResultTypes (Data d)) = Some (pre ++ ch :: post) ->
  Forall2 (childFetched r) pre cds ->
  (FuncGet r (queryResultPath (cid ch)) = HttpErr e \/
   FuncGet r (queryResultPath (cid ch)) = HttpOk (BodyMalformed e)) ->
  QueryContext x ctx q args s =
    Some (Err e, afterGets (execDoneState x s c req (Data d)) (pre ++ [ch])).
Proof.
  intros Hc Hr Hi Ha Hb req Hj Hp Hs Hn Hm Hch Hf Hg.
  rewrite (QueryContext_multi_eq x ctx q args s c r b d n nr ii _
             Hc Hr Hi Ha Hb Hj Hp Hs Hn Hm Hch).
  fold req.
  assert (Hr1 : rest (conn (execDoneState x s c req (Data d))) = Some r) by exact Hr.
  rewrite (queryChildren_prefix r pre cds (ch :: post) [] (execDoneState x s c req (Data d)) _
             eq_refl Hr1 Hf).
  cbn [queryChildren]. unfold mbind at 1, M_bind at 1.
  assert (Hr2 : rest (conn (afterGets (execDoneState x s c req (Data d)) pre)) = Some r)
    by exact Hr.
  rewrite (getQueryResult_eq (afterGets (execDoneState x s c req (Data d)) pre) _ r _
             eq_refl Hr2).
  cbv beta iota.
  destruct Hg as [Hg|Hg]; rewrite Hg; unfold mret, M_ret; cbv beta iota;
    rewrite <- afterGets_app; reflexivity.
Qed.

Lemma multi_query_child_failure_witness :
  let s := openState (restWith (okResponse multiData) (childGetThen (HttpErr (TransportError 3)))) in
  let req := buildRequest emptyCtx "SELECT 1; SELECT 2" false false
               (wrap_uint64 (SequenceCounter (conn s) + 1)) None in
  QueryContext sampleExternals emptyCtx "SELECT 1; SELECT 2" [] s =
    Some (Err (TransportError 3),
          afterGets (execDoneState sampleExternals s sampleConfig req (Data (okResponse multiData)))
            ([{| cid := "01a-1"; ctyp := "12544" |}] ++ [{| cid := "01a-2"; ctyp := "12544" |}])).
Proof.
  apply (multi_query_child_failure sampleExternals emptyCtx "SELECT 1; SELECT 2" []
           (openState (restWith (okResponse multiData) (childGetThen (HttpErr (TransportError 3))))) sampleConfig
           (restWith (okResponse multiData) (childGetThen (HttpErr (TransportError 3)))) None (okResponse multiData) (-1)
           false false [{| cid := "01a-1"; ctyp := "12544" |}]
           [okResponse (dmlData [Some "2"] ["n"])] {| cid := "01a-2"; ctyp := "12544" |} []
           (TransportError 3)); try reflexivity.
  - repeat constructor.
  - left. reflexivity.
Defined.

(** A statement whose response is not a multi-statement result (the
    type id is not [0x1000], or its first column is not the marker) gives
    [QueryContext] rows over the response's own data, with its schema and
    query id, and gives [ExecContext], when it is not a DML statement
    either, [driver.ResultNoRows]; no child result is fetched. *)
Theorem single_statement_results {V} (x : externals V) ctx q args s c r b d n nr ii :
  cfg (conn s) = Some c -> rest (conn s) = Some r ->
  isInternal ctx = Ok ii -> isAsyncMode ctx = Ok nr ->
  buildBindings (conv x) args = Ok b ->
  let req := buildRequest ctx q nr ii (wrap_uint64 (SequenceCounter (conn s) + 1)) b in
  jsonMarshalable req = true ->
  FuncPostQuery r req = (Some d, None) ->
  Success d = true -> statusCode (Code d) = inr n ->
  isMultiStmt (Data d) = Some false ->
  QueryContext x ctx q args s =
    Some (Ok {| rowsRowType := RowType (Data d); rowsChain := [Data d];
                rowsQueryID := QueryID (Data d) |},
          execDoneState x s c req (Data d)) /\
  (isDml (StatementTypeID (Data d)) = false ->
   ExecContext x ctx q args s = Some (Ok ResultNoRows, execDoneState x s c req (Data d))).
Proof.
  intros Hc Hr Hi Ha Hb req Hj Hp Hs Hn Hm. split.
  - rewrite (QueryContext_success x ctx q args s c r b d n nr ii Hc Hr Hi Ha Hb Hj Hp Hs Hn).
    unfold queryDispatch, mbind, M_bind, getConn, mret, M_ret. rewrite Hm. reflexivity.
  - intros Hd.
    rewrite (ExecContext_success x ctx q args s c r b d n nr ii Hc Hr Hi Ha Hb Hj Hp Hs Hn).
    unfold execDispatch. rewrite Hd, Hm. reflexivity.
Qed.

Lemma single_statement_results_witness :
  let s := openState (sampleRest (okResponse plainMultiIdData)) in
  let req := buildRequest emptyCtx "SELECT a FROM t" false false
               (wrap_uint64 (SequenceCounter (conn s) + 1)) None in
  QueryContext sampleExternals emptyCtx "SELECT a FROM t" [] s =
    Some (Ok {| rowsRowType := RowType plainMultiIdData; rowsChain := [plainMultiIdData];
                rowsQueryID := QueryID plainMultiIdData |},
          execDoneState sampleExternals s sampleConfig req plainMultiIdData) /\
  (isDml (StatementTypeID plainMultiIdData) = false ->
   ExecContext sampleExternals emptyCtx "SELECT a FROM t" [] s =
     Some (Ok ResultNoRows, execDoneState sampleExternals s sampleConfig req plainMultiIdData)).
Proof.
  apply (single_statement_results sampleExternals emptyCtx "SELECT a FROM t" []
           (openState (sampleRest (okResponse plainMultiIdData))) sampleConfig
           (sampleRest (okResponse plainMultiIdData)) None (okResponse plainMultiIdData) (-1)
           false false); reflexivity.
Defined.

(** In a multi-statement call, a child result whose body decodes to JSON
    null, reached after the earlier children were read, makes both
    [ExecContext] and [QueryContext] panic ([childData.Data] on a nil
    pointer). *)
Theorem multi_child_null_body_panics {V} (x : externals V) ctx q args s c r b d n nr ii pre ks cds ch post :
  cfg (conn s) = Some c -> rest (conn s) = Some r ->
  isInternal ctx = Ok ii -> isAsyncMode ctx = Ok nr ->
  buildBindings (conv x) args = Ok b ->
  let req := buildRequest ctx q nr ii (wrap_uint64 (SequenceCounter (conn s) + 1)) b in
  jsonMarshalable req = true ->
  FuncPostQuery r req = (Some d, None) ->
  Success d = true -> statusCode (Code d) = inr n ->
  isMultiStmt (Data d) = Some true ->
  getChildResults (ResultIDs (Data d)) (ResultTypes (Data d)) = Some (pre ++ ch :: post) ->
  FuncGet r (queryResultPath (cid ch)) = HttpOk (BodyJSON None) ->
  (Forall2 (childCount r) pre ks -> ExecContext x ctx q args s = None) /\
  (Forall2 (childFetched r) pre cds -> QueryContext x ctx q args s = None).
Proof.
  intros Hc Hr Hi Ha Hb req Hj Hp Hs Hn Hm Hch Hg.
  assert (Hr1 : rest (conn (execDoneState x s c req (Data d))) = Some r) by exact Hr.
  assert (Hr2 : rest (conn (afterGets (execDoneState x s c req (Data d)) pre)) = Some r)
    by exact Hr.
  split; intros Hf.
  - rewrite (ExecContext_multi_eq x ctx q args s c r b d n nr ii _
               Hc Hr Hi Ha Hb Hj Hp Hs Hn Hm Hch).
    fold req.
    pose proof (execChildren_prefix r pre ks (ch :: post) 0 (execDoneState x s c req (Data d)) _
                  eq_refl Hr1 Hf) as E.
    change (wrap_int64 0) with 0 in E. rewrite E.
    cbn [execChildren]. unfold mbind at 1, M_bind at 1.
    rewrite (getQueryResult_eq (afterGets (execDoneState x s c req (Data d)) pre) _ r _
               eq_refl Hr2), Hg.
    reflexivity.
  - rewrite (QueryContext_multi_eq x ctx q args s c r b d n nr ii _
               Hc Hr Hi Ha Hb Hj Hp Hs Hn Hm Hch).
    fold req.
    rewrite (queryChildren_prefix r pre cds (ch :: post) [] (execDoneState x s c req (Data d)) _
               eq_refl Hr1 Hf).
    cbn [queryChildren]. unfold mbind at 1, M_bind at 1.
    rewrite (getQueryResult_eq (afterGets (execDoneState x s c req (Data d)) pre) _ r _
               eq_refl Hr2), Hg.
    reflexivity.
Qed.

Lemma multi_child_null_body_panics_witness :
  (Forall2 (childCount (restWith (okResponse multiData) (childGetThen (HttpOk (BodyJSON None)))))
     [{| cid := "01a-1"; ctyp := "12544" |}] [2] ->
   ExecContext sampleExternals emptyCtx "SELECT 1; SELECT 2" []
     (openState (restWith (okResponse multiData) (childGetThen (HttpOk (BodyJSON None))))) = None) /\
  (Forall2 (childFetched (restWith (okResponse multiData) (childGetThen (HttpOk (BodyJSON None)))))
     [{| cid := "01a-1"; ctyp := "12544" |}] [okResponse (dmlData [Some "2"] ["n"])] ->
   QueryContext sampleExternals emptyCtx "SELECT 1; SELECT 2" []
     (openState (restWith (okResponse multiData) (childGetThen (HttpOk (BodyJSON None))))) = None).
Proof.
  apply (multi_child_null_body_panics sampleExternals emptyCtx "SELECT 1; SELECT 2" []
           (openState (restWith (okResponse multiData) (childGetThen (HttpOk (BodyJSON None)))))
           sampleConfig (restWith (okResponse multiData) (childGetThen (HttpOk (BodyJSON None))))
           None (okResponse multiData) (-1) false false
           [{| cid := "01a-1"; ctyp := "12544" |}] [2] [okResponse (dmlData [Some "2"] ["n"])]
           {| cid := "01a-2"; ctyp := "12544" |} []); reflexivity.
Defined.

(** In a multi-statement [ExecContext], a DML child result whose
    affected-row cell does not parse, reached after the earlier children
    were counted, is reported through the child's status code: the
    [strconv.Atoi] error of that code when it does not parse (an empty
    code included), and a panic when it does. *)
Theorem multi_exec_child_bad_count {V} (x : externals V) ctx q args s c r b d n nr ii pre ks ch post cd e0 :
  cfg (conn s) = Some c -> rest (conn s) = Some r ->
  isInternal ctx = Ok ii -> isAsyncMode ctx = Ok nr ->
  buildBindings (conv x) args = Ok b ->
  let req := buildRequest ctx q nr ii (wrap_uint64 (SequenceCounter (conn s) + 1)) b in
  jsonMarshalable req = true ->
  FuncPostQuery r req = (Some d, None) ->
  Success d = true -> statusCode (Code d) = inr n ->
  isMultiStmt (Data d) = Some true ->
  getChildResults (ResultIDs (Data d)) (ResultTypes (Data d)) = Some (pre ++ ch :: post) ->
  Forall2 (childCount r) pre ks ->
  FuncGet r (queryResultPath (cid ch)) = HttpOk (BodyJSON (Some cd)) ->
  isDml (StatementTypeID (Data cd)) = true ->
  updateRows (Data cd) = Some (Err e0) ->
  ExecContext x ctx q args s =
    match Atoi (Code cd) with
    | inl e => Some (Err (numError e), afterGets (execDoneState x s c req (Data d)) (pre ++ [ch]))
    | inr _ => None
    end.
Proof.
  intros Hc Hr Hi Ha Hb req Hj Hp Hs Hn Hm Hch Hf Hg Hd Hu.
  assert (Hr1 : rest (conn (execDoneState x s c req (Data d))) = Some r) by exact Hr.
  assert (Hr2 : rest (conn (afterGets (execDoneState x s c req (Data d)) pre)) = Some r)
    by exact Hr.
  rewrite (ExecContext_multi_eq x ctx q args s c r b d n nr ii _
             Hc Hr Hi Ha Hb Hj Hp Hs Hn Hm Hch).
  fold req.
  pose proof (execChildren_prefix r pre ks (ch :: post) 0 (execDoneState x s c req (Data d)) _
                eq_refl Hr1 Hf) as E.
  change (wrap_int64 0) with 0 in E. rewrite E.
  cbn [execChildren]. unfold mbind at 1, M_bind at 1.
  rewrite (getQueryResult_eq (afterGets (execDoneState x s c req (Data d)) pre) _ r _
             eq_refl Hr2), Hg.
  cbv beta iota. unfold mbind at 1, M_bind at 1, deref, mret, M_ret. cbv beta iota.
  rewrite Hd, Hu. rewrite <- afterGets_app.
  destruct (Atoi (Code cd)); reflexivity.
Qed.

Lemma multi_exec_child_bad_count_witness :
  let child code := {| Data := dmlData [Some "x"] ["n"]; Message := ""; Code := code;
                       Success := true |} in
  let g code := childGetThen (HttpOk (BodyJSON (Some (child code)))) in
  let s code := openState (restWith (okResponse multiData) (g code)) in
  let req code := buildRequest emptyCtx "INSERT INTO a VALUES (1); INSERT INTO b VALUES (2)"
                    false false (wrap_uint64 (SequenceCounter (conn (s code)) + 1)) None in
  ExecContext sampleExternals emptyCtx "INSERT INTO a VALUES (1); INSERT INTO b VALUES (2)" []
    (s "") =
    match Atoi "" with
    | inl e => Some (Err (numError e), afterGets (execDoneState sampleExternals (s "") sampleConfig
                                                   (req "") (Data (okResponse multiData)))
                                         multiChildren)
    | inr _ => None
    end /\
  ExecContext sampleExternals emptyCtx "INSERT INTO a VALUES (1); INSERT INTO b VALUES (2)" []
    (s "0") =
    match Atoi "0" with
    | inl e => Some (Err (numError e), afterGets (execDoneState sampleExternals (s "0") sampleConfig
                                                   (req "0") (Data (okResponse multiData)))
                                         multiChildren)
    | inr _ => None
    end.
Proof.
  split;
  [ apply (multi_exec_child_bad_count sampleExternals emptyCtx
             "INSERT INTO a VALUES (1); INSERT INTO b VALUES (2)" []
             (openState (restWith (okResponse multiData)
                (childGetThen (HttpOk (BodyJSON (Some {| Data := dmlData [Some "x"] ["n"];
                   Message := ""; Code := ""; Success := true |}))))))
             sampleConfig
             (restWith (okResponse multiData)
                (childGetThen (HttpOk (BodyJSON (Some {| Data := dmlData [Some "x"] ["n"];
                   Message := ""; Code := ""; Success := true |})))))
             None (okResponse multiData) (-1) false false
             [{| cid := "01a-1"; ctyp := "12544" |}] [2] {| cid := "01a-2"; ctyp := "12544" |} []
             {| Data := dmlData [Some "x"] ["n"]; Message := ""; Code := ""; Success := true |}
             (numError ("ParseInt", "x", ErrSyntax)))
  | apply (multi_exec_child_bad_count sampleExternals emptyCtx
             "INSERT INTO a VALUES (1); INSERT INTO b VALUES (2)" []
             (openState (restWith (okResponse multiData)
                (childGetThen (HttpOk (BodyJSON (Some {| Data := dmlData [Some "x"] ["n"];
                   Message := ""; Code := "0"; Success := true |}))))))
             sampleConfig
             (restWith (okResponse multiData)
                (childGetThen (HttpOk (BodyJSON (Some {| Data := dmlData [Some "x"] ["n"];
                   Message := ""; Code := "0"; Success := true |})))))
             None (okResponse multiData) (-1) false false
             [{| cid := "01a-1"; ctyp := "12544" |}] [2] {| cid := "01a-2"; ctyp := "12544" |} []
             {| Data := dmlData [Some "x"] ["n"]; Message := ""; Code := "0"; Success := true |}
             (numError ("ParseInt", "x", ErrSyntax))) ];
  try reflexivity; repeat constructor; eexists; split; reflexivity.
Defined.

(** [Ping] returns the error of its [exec] of ["SELECT 1"] unchanged: a
    transport error is returned as is, even when response data came with
    it (where [ExecContext] reads the data's code instead), and a
    successful response returns nil after the same session update as any
    [exec]. *)
Theorem Ping_returns_exec_error {V} (x : externals V) ctx s c r nr ii :
  cfg (conn s) = Some c -> rest (conn s) = Some r ->
  isInternal ctx = Ok ii -> isAsyncMode ctx = Ok nr ->
  let req := buildRequest ctx "SELECT 1" nr ii (wrap_uint64 (SequenceCounter (conn s) + 1)) None in
  jsonMarshalable req = true ->
  (forall data e, FuncPostQuery r req = (data, Some e) ->
     Ping x ctx s = Some (Some e, postedState s req)) /\
  (forall d n, FuncPostQuery r req = (Some d, None) -> Success d = true ->
     statusCode (Code d) = inr n ->
     Ping x ctx s = Some (None, execDoneState x s c req (Data d))).
Proof.
  intros Hc Hr Hi Ha req Hj. split.
  - intros data e Hp.
    unfold Ping, mbind, M_bind, getConn. simpl. rewrite Hr, Hi, Ha.
    rewrite (exec_transport_error_eq x ctx "SELECT 1" nr ii [] s c r None data e
               Hc Hr eq_refl Hj Hp).
    reflexivity.
  - intros d n Hp Hs Hn.
    unfold Ping, mbind, M_bind, getConn. simpl. rewrite Hr, Hi, Ha.
    rewrite (exec_success x ctx "SELECT 1" nr ii [] s c r None d n Hc Hr eq_refl Hj Hp Hs Hn).
    reflexivity.
Qed.

Lemma Ping_returns_exec_error_witness :
  let s := openState (failingRest (Some codedFailure) (TransportError 7)) in
  let req := buildRequest emptyCtx "SELECT 1" false false
               (wrap_uint64 (SequenceCounter (conn s) + 1)) None in
  (forall data e, FuncPostQuery (failingRest (Some codedFailure) (TransportError 7)) req
                    = (data, Some e) ->
     Ping sampleExternals emptyCtx s = Some (Some e, postedState s req)) /\
  (forall d n, FuncPostQuery (failingRest (Some codedFailure) (TransportError 7)) req
                 = (Some d, None) -> Success d = true -> statusCode (Code d) = inr n ->
     Ping sampleExternals emptyCtx s =
       Some (None, execDoneState sampleExternals s sampleConfig req (Data d))).
Proof.
  apply (Ping_returns_exec_error sampleExternals emptyCtx
           (openState (failingRest (Some codedFailure) (TransportError 7))) sampleConfig
           (failingRest (Some codedFailure) (TransportError 7)) false false); reflexivity.
Defined.

(** [Close] dereferences the config (to check session keep-alive) and the
    transport it closes: on a connection whose config or transport is
    nil it panics, so closing a connection a second time panics. *)
Theorem Close_requires_open_connection :
  (forall s, cfg (conn s) = None \/ rest (conn s) = None -> Close s = None) /\
  (forall s c r, cfg (conn s) = Some c -> rest (conn s) = Some r ->
     exists s', Close s = Some (None, s') /\ Close s' = None).
Proof.
  split.
  - intros s H. unfold Close, stopHeartBeat. msimpl.
    destruct (cfg (conn s)) as [c|] eqn:Hc; simpl; [|reflexivity].
    destruct H as [H|H]; [discriminate|].
    destruct (keepAliveEnabled c); simpl; rewrite H; reflexivity.
  - intros s c r Hc Hr. exists (closedState s c). split.
    + exact (Close_result s c r Hc Hr).
    + reflexivity.
Qed.

(** After a successful [exec], whether [Close] stops the heartbeat is
    decided by the session parameters the response returned: the last
    [client_session_keep_alive] parameter (names lowered by
    [strings.ToLower]) is enabled when its value prints as ["true"], and
    without one the setting in force before the call is kept. [Close]
    calls [stop] on [sc.rest.HeartBeat] when keep-alive is enabled, so
    the transport must then carry a started heartbeat. *)
Theorem exec_keep_alive_close {V} (x : externals V) ctx q nr ii bs s c r b d n :
  cfg (conn s) = Some c -> rest (conn s) = Some r ->
  buildBindings (conv x) bs = Ok b ->
  let req := buildRequest ctx q nr ii (wrap_uint64 (SequenceCounter (conn s) + 1)) b in
  jsonMarshalable req = true ->
  FuncPostQuery r req = (Some d, None) ->
  Success d = true -> statusCode (Code d) = inr n ->
  let ka := match lastParam x sessionClientSessionKeepAlive (Parameters (Data d)) with
            | Some p => String.eqb (paramString x (ParamValue p)) "true"
            | None => keepAliveEnabled c
            end in
  (ka = true -> HeartBeat r <> None) ->
  exists s1 s2,
    exec x ctx q nr ii bs s = Some ((Some d, None), s1) /\
    Close s1 = Some (None, s2) /\
    trace s2 = trace s1 ++ (if ka then [EvStopHeartBeat] else []) ++ [EvCloseSession] /\
    cfg (conn s2) = None /\ rest (conn s2) = None.
Proof.
  intros Hc Hr Hb req Hj Hp Hs Hn ka _.
  exists (execDoneState x s c req (Data d)).
  eexists. split; [exact (exec_success x ctx q nr ii bs s c r b d n Hc Hr Hb Hj Hp Hs Hn)|].
  assert (Hr1 : rest (conn (execDoneState x s c req (Data d))) = Some r) by exact Hr.
  split; [exact (Close_result (execDoneState x s c req (Data d)) _ r eq_refl Hr1)|].
  unfold closedState. cbn [trace conn cfg rest]. repeat split.
  f_equal. f_equal. subst ka. unfold keepAliveEnabled. cbn [execDoneState applySuccess conn cfg Params].
  rewrite populateSessionParameters_lookup.
  destruct (lastParam x sessionClientSessionKeepAlive (Parameters (Data d))); reflexivity.
Qed.

Lemma exec_keep_alive_close_witness :
  let d := okResponse {| StatementTypeID := 1; RowType := []; RowSet := []; RowSetBase64 := "";
             Total := 0; Chunks := []; Qrmk := ""; QueryResultFormat := "json";
             Parameters := [{| ParamName := "CLIENT_SESSION_KEEP_ALIVE"; ParamValue := PBool true |}];
             SQLState := "00000"; QueryID := "qid"; FinalDatabaseName := "DB";
             FinalSchemaName := "PUBLIC"; FinalRoleName := "SYSADMIN"; FinalWarehouseName := "WH";
             ResultIDs := ""; ResultTypes := "" |} in
  let r := with_heartbeat (Some heartbeat_start) (sampleRest d) in
  let s := openState r in
  let ka := match lastParam sampleExternals sessionClientSessionKeepAlive (Parameters (Data d)) with
            | Some p => String.eqb (paramString sampleExternals (ParamValue p)) "true"
            | None => keepAliveEnabled sampleConfig
            end in
  (ka = true -> HeartBeat r <> None) /\
  exists s1 s2,
    exec sampleExternals emptyCtx "ALTER SESSION SET CLIENT_SESSION_KEEP_ALIVE = TRUE"
      false false [] s = Some ((Some d, None), s1) /\
    Close s1 = Some (None, s2) /\
    trace s2 = trace s1 ++ (if ka then [EvStopHeartBeat] else []) ++ [EvCloseSession] /\
    cfg (conn s2) = None /\ rest (conn s2) = None.
Proof.
  intros d r s ka.
  assert (Hhb : ka = true -> HeartBeat r <> None) by (intros _; discriminate).
  split; [exact Hhb|].
  apply (exec_keep_alive_close sampleExternals emptyCtx
           "ALTER SESSION SET CLIENT_SESSION_KEEP_ALIVE = TRUE" false false [] s sampleConfig
           r None d (-1)); try reflexivity.
  exact Hhb.
Defined.

Lemma zipChildren_combine ids : forall types,
  zipChildren ids types =
    if Nat.leb (length ids) (length types)
    then Some (map (fun '(i, t) => {| cid := i; ctyp := t |}) (combine ids types))
    else None.
Proof.
  induction ids as [|i ids IH]; intros [|t types]; try reflexivity.
  simpl. rewrite IH. destruct (Nat.leb (length ids) (length types)); reflexivity.
Qed.

(** [getChildResults] pairs the i-th comma-separated result id with the
    i-th result type, ignoring surplus types; an empty id list gives no
    child, and fewer types than ids make it panic (index out of range). *)
Theorem getChildResults_pairs IDs types :
  getChildResults IDs types =
    if String.eqb IDs "" then Some []
    else if Nat.leb (length (Split IDs ",")) (length (Split types ","))
    then Some (map (fun '(i, t) => {| cid := i; ctyp := t |})
                 (combine (Split IDs ",") (Split types ",")))
    else None.
Proof.
  unfold getChildResults. destruct (String.eqb IDs ""); [reflexivity|].
  apply zipChildren_combine.
Qed.
